(** * josim_tools.verify: the verification engine

    A shallow embedding of [src/josim_tools/verify.py] and the proofs of its
    specified properties.

    The module compares the phase of a simulated circuit, sampled at the
    instants listed in a spec file, against the phase flips the spec file
    expects, relative to a calibration point (index 0), and reports the first
    instant at which some signal is off by more than a threshold.

    Layout:
    - Part I   the embedding: exceptions, float64 arithmetic as an interface
               with two instances (IEEE 754 binary64 and exact rationals),
               the slice of numpy the module uses, the collaborators it
               calls, [VerifierResult] and [Verifier];
    - Part II  the specification read declaratively ([signal_difference],
               [exceeding], [well_formed]) and the scenarios of the spec;
    - Part III lemmas on the numpy layer, the loop and the checks;
    - Part IV  the specified properties, C1 to C10;
    - Part V   further properties of the code: [_simulate], [__init__],
               what [verify] raises and keeps, early exit, thresholds and
               values that compare with nothing, broadcasting, and [plot]
               (modelled in Part II-b).

    The properties that do not depend on how numbers round are proved for
    any instance of the arithmetic, binary64 included; calibration
    invariance (C5) is proved for the rationals, and shown to be lost in
    binary64. *)

From Stdlib Require Import String List Bool Arith Lia ZArith QArith Qabs Floats Sorted.
Import ListNotations.
Close Scope Q_scope.
Open Scope nat_scope.

Set Implicit Arguments.

(* ===================================================================== *)
(** * Part I. The embedding                                               *)
(* ===================================================================== *)

(** ** Exceptions

    [verify.py] has one [assert]; numpy indexing raises [IndexError] and
    numpy broadcasting raises [ValueError]; whatever a collaborator raises
    is carried, untouched, in [CollaboratorError]. *)

Inductive exn (E : Type) : Type :=
| AssertionError
| IndexError
| ValueError
| CollaboratorError (e : E).

Arguments AssertionError {E}.
Arguments IndexError {E}.
Arguments ValueError {E}.
Arguments CollaboratorError {E} e.

(** A computation either returns a value or raises. *)
Inductive result (E A : Type) : Type :=
| Return (a : A)
| Raise (x : exn E).

Arguments Return {E A} a.
Arguments Raise {E A} x.

Definition bind {E A B} (m : result E A) (k : A -> result E B) : result E B :=
  match m with
  | Return a => k a
  | Raise x => Raise x
  end.

(** A call into a collaborator: its exception propagates as it is. *)
Definition call {E A} (r : E + A) : result E A :=
  match r with
  | inr a => Return a
  | inl e => Raise (CollaboratorError e)
  end.

Declare Scope py_scope.
Delimit Scope py_scope with py.
Notation "x <- m ;; k" := (bind m (fun x => k))
  (at level 61, m at next level, right associativity) : py_scope.
Open Scope py_scope.

(** ** float64 arithmetic

    The operations [verify.py] applies to numbers, as an interface.  [fgt] is
    Python's [>]; [ftwo] is the integer literal [2] promoted to float64 in
    [2 * np.pi]; [fle] and [fadd] appear in specifications only. *)

Class Float64 (F : Type) : Type := {
  fadd : F -> F -> F;
  fsub : F -> F -> F;
  fmul : F -> F -> F;
  fdiv : F -> F -> F;
  fabs : F -> F;
  fgt : F -> F -> bool;
  fle : F -> F -> bool;
  ftwo : F;
  np_pi : F
}.

(** What the comparison must satisfy for "at most the threshold" to mean
    "not above the threshold". *)
Class Float64Order (F : Type) {arith : Float64 F} : Prop := {
  fle_not_fgt : forall a b : F, fle a b = true -> fgt a b = false
}.

Arguments Float64Order F {arith}.

(** IEEE 754 binary64, the arithmetic numpy runs. [np.pi] is the double
    nearest to pi. *)
#[export] Instance binary64 : Float64 float := {
  fadd := PrimFloat.add;
  fsub := PrimFloat.sub;
  fmul := PrimFloat.mul;
  fdiv := PrimFloat.div;
  fabs := PrimFloat.abs;
  fgt := fun a b => PrimFloat.ltb b a;
  fle := PrimFloat.leb;
  ftwo := 2%float;
  np_pi := 0x1.921fb54442d18p+1%float
}.

(** Exact rational arithmetic: the same operations without rounding. [np.pi]
    is the same double, as the rational it denotes. *)
#[export] Instance rational : Float64 Q := {
  fadd := Qplus;
  fsub := Qminus;
  fmul := Qmult;
  fdiv := Qdiv;
  fabs := Qabs;
  fgt := fun a b => negb (Qle_bool a b);
  fle := Qle_bool;
  ftwo := 2%Q;
  np_pi := (884279719003555 # 281474976710656)%Q
}.

(** ** The slice of numpy used by [verify]

    One-dimensional arrays are lists; the two-dimensional [phase_flips] is a
    list of rows. *)

Section Numpy.
Context {F : Type} {arith : Float64 F} {E : Type}.

(** [a[i]] for a non-negative [i]: [IndexError] out of bounds. *)
Definition np_getitem {A} (a : list A) (i : nat) : result E A :=
  match nth_error a i with
  | Some x => Return x
  | None => Raise IndexError
  end.

(** [np.array(rows)] on a list of lists: rows of unequal length raise
    [ValueError] (numpy 1.24 and later: inhomogeneous shape). *)
Definition np_array2 (rows : list (list F)) : result E (list (list F)) :=
  match rows with
  | [] => Return []
  | r :: rs =>
      if forallb (fun r' => length r' =? length r) rs
      then Return rows
      else Raise ValueError
  end.

(** Two arrays of one shape, combined entry by entry. *)
Definition zip_with (f : F -> F -> F) (a b : list F) : list F :=
  map (fun p => f (fst p) (snd p)) (combine a b).

(** An elementwise binary operation on two 1-D arrays, with numpy's
    broadcasting: equal lengths pair up, a length-1 operand is stretched,
    anything else raises [ValueError]. *)
Definition np_binop (f : F -> F -> F) (a b : list F) : result E (list F) :=
  if length a =? length b
  then Return (zip_with f a b)
  else match a, b with
       | [x], _ => Return (map (fun y => f x y) b)
       | _, [y] => Return (map (fun x => f x y) a)
       | _, _ => Raise ValueError
       end.

(** [a - b] *)
Definition np_sub : list F -> list F -> result E (list F) := np_binop fsub.

(** [a / s] for a scalar [s] *)
Definition np_div_scalar (a : list F) (s : F) : list F :=
  map (fun x => fdiv x s) a.

(** [np.abs(a)] *)
Definition np_abs (a : list F) : list F := map fabs a.

(** [a > s] for a scalar [s] *)
Definition np_gt_scalar (a : list F) (s : F) : list bool :=
  map (fun x => fgt x s) a.

(** [np.any(mask)] *)
Definition np_any (mask : list bool) : bool := existsb (fun b => b) mask.

(** [np.where(mask)[0]]: the positions of [True], in increasing order. *)
Fixpoint np_where_from (k : nat) (mask : list bool) : list nat :=
  match mask with
  | [] => []
  | b :: mask' =>
      if b then k :: np_where_from (S k) mask'
      else np_where_from (S k) mask'
  end.

Definition np_where (mask : list bool) : list nat := np_where_from 0 mask.
End Numpy.

(** ** Collaborators

    [SpecFile], [CircuitSimulator], [CircuitSimulatorOutput], [PlotParameter]
    and [VerifyConfiguration] live in other modules of the package; [verify.py]
    only calls them.  Their data is modelled by records, their behaviour is a
    parameter. *)

(** What [SpecFile.names()], [SpecFile.time()] and [SpecFile.data()] return. *)
Record SpecFile (F : Type) : Type := {
  names : list string;
  time : list F;
  data : list (list F)
}.

Record PlotParameter : Type := { plot_name : string }.

Record VerifyConfiguration (F : Type) : Type := {
  method : string;
  circuit_path : string;
  file_path : string;
  threshold : F;
  wrspice_compatibility : bool
}.

(** The calls [verify.py] makes.  [E] is the type of the exceptions the
    collaborators raise.  The simulator is a mutable object: a method takes
    its state and returns the state it leaves behind. *)
Class Collaborators (F E : Type) : Type := {
  CircuitSimulator : Type;
  CircuitSimulatorOutput : Type;
  (** [CircuitSimulator(circuit_path, plots, wrspice_compatibility=...)] *)
  new_CircuitSimulator : string -> list PlotParameter -> bool -> E + CircuitSimulator;
  (** [SpecFile(file_path)] *)
  new_SpecFile : string -> E + SpecFile F;
  (** [simulator.change_traces(plot_parameters)] *)
  change_traces : CircuitSimulator -> list PlotParameter -> (E + unit) * CircuitSimulator;
  (** [simulator.change_parameters(parameters)] *)
  change_parameters : CircuitSimulator -> list string -> (E + unit) * CircuitSimulator;
  (** [simulator.simulate(values)] *)
  simulate : CircuitSimulator -> list F -> (E + CircuitSimulatorOutput) * CircuitSimulator;
  (** [output.sample(time)] *)
  sample : CircuitSimulatorOutput -> F -> E + list F
}.

(** ** VerifierResult *)

Record VerifierResult (F : Type) : Type := {
  succeed : bool;
  failure_time : option F;
  failure_point : option (list nat)
}.

(** [VerifierResult.__bool__] *)
Definition __bool__ {F} (self : VerifierResult F) : bool := succeed self.

(** ** Verifier *)

Section Verifier.
Context {F : Type} {arith : Float64 F} {E : Type} {collab : Collaborators F E}.

Record Verifier : Type := {
  simulator_ : CircuitSimulator;
  spec_file_ : SpecFile F;
  threshold_ : F
}.

(** [Verifier.__init__] *)
Definition __init__ (configuration : VerifyConfiguration F) : result E Verifier :=
  if negb (String.eqb (method configuration) "spec_file")
  then Raise AssertionError
  else
    simulator <- call (new_CircuitSimulator (circuit_path configuration) []
                         (wrspice_compatibility configuration)) ;;
    spec_file <- call (new_SpecFile (file_path configuration)) ;;
    let threshold := threshold configuration in
    let names := names spec_file in
    let plot_parameters := map Build_PlotParameter names in
    let (r, simulator') := change_traces simulator plot_parameters in
    _ <- call r ;;
    Return {| simulator_ := simulator';
              spec_file_ := spec_file;
              threshold_ := threshold |}.

(** The loop of [_simulate]: one [append] to each list per dictionary item,
    in the dictionary's order. *)
Definition split_items (params : list (string * F)) : list string * list F :=
  fold_left
    (fun (acc : list string * list F) (item : string * F) =>
       (fst acc ++ [fst item], snd acc ++ [snd item]))
    params ([], []).

Definition with_simulator (self : Verifier) (simulator : CircuitSimulator) : Verifier :=
  {| simulator_ := simulator;
     spec_file_ := spec_file_ self;
     threshold_ := threshold_ self |}.

(** [Verifier._simulate]: returns the output (or raises) and the verifier
    with its simulator as the calls left it. *)
Definition _simulate (self : Verifier) (params : list (string * F))
  : result E CircuitSimulatorOutput * Verifier :=
  let (parameters, values) := split_items params in
  let (r, simulator') := change_parameters (simulator_ self) parameters in
  match r with
  | inl e => (Raise (CollaboratorError e), with_simulator self simulator')
  | inr _ =>
      let (o, simulator'') := simulate simulator' values in
      (call o, with_simulator self simulator'')
  end.

(** The body of the [for] loop of [verify] (lines 81-95) at [index]:
    [Some] result when the iteration returns, [None] when it falls
    through to the next one. *)
Definition verify_step (threshold : F) (output : CircuitSimulatorOutput)
    (time_steps : list F) (phase_flips : list (list F))
    (calibration_phase_flips calibration_samples : list F)
    (index : nat) : result E (option (VerifierResult F)) :=
  time_step <- np_getitem time_steps index ;;
  samples <- call (sample output time_step) ;;
  sampled_delta <- np_sub samples calibration_samples ;;
  let phase_flips_sampled := np_div_scalar sampled_delta (fmul ftwo np_pi) in
  expected <- np_getitem phase_flips index ;;
  phase_flips_compare <- np_sub expected calibration_phase_flips ;;
  delta <- np_sub phase_flips_sampled phase_flips_compare ;;
  let difference := np_abs delta in
  let comparisons := np_gt_scalar difference threshold in
  if np_any comparisons
  then Return (Some {| succeed := false;
                       failure_time := Some time_step;
                       failure_point := Some (np_where comparisons) |})
  else Return None.

(** The [for] loop over the indices still to visit. *)
Fixpoint verify_loop (step : nat -> result E (option (VerifierResult F)))
    (indices : list nat) : result E (VerifierResult F) :=
  match indices with
  | [] => Return {| succeed := true; failure_time := None; failure_point := None |}
  | index :: rest =>
      r <- step index ;;
      match r with
      | Some failure => Return failure
      | None => verify_loop step rest
      end
  end.

(** [verify] after the simulation (lines 71-97). *)
Definition check (spec_file : SpecFile F) (threshold : F)
    (output : CircuitSimulatorOutput) : result E (VerifierResult F) :=
  let time_steps := time spec_file in
  phase_flips <- np_array2 (data spec_file) ;;
  calibration_phase_flips <- np_getitem phase_flips 0 ;;
  t0 <- np_getitem time_steps 0 ;;
  calibration_samples <- call (sample output t0) ;;
  let num_steps := length time_steps in
  verify_loop
    (verify_step threshold output time_steps phase_flips
       calibration_phase_flips calibration_samples)
    (seq 1 (num_steps - 1)).

(** [Verifier.verify] *)
Definition verify (self : Verifier) (params : option (list (string * F)))
  : result E (VerifierResult F) * Verifier :=
  let params := match params with None => [] | Some p => p end in
  let (r, self') := _simulate self params in
  (output <- r ;; check (spec_file_ self') (threshold_ self') output, self').
End Verifier.

Arguments Verifier F {E collab}.

(* ===================================================================== *)
(** * Part II. The specification, read declaratively                      *)
(* ===================================================================== *)

Section Specification.
Context {F : Type} {arith : Float64 F} {E : Type} {collab : Collaborators F E}.

Variable spec_file : SpecFile F.
Variable output : CircuitSimulatorOutput.
Variable threshold : F.

(** The sample vector at the [i]-th time point of the expectation
    sequence, when there is such a point and sampling succeeds there. *)
Definition sample_at (i : nat) : option (list F) :=
  match nth_error (time spec_file) i with
  | Some t =>
      match sample output t with
      | inr v => Some v
      | inl _ => None
      end
  | None => None
  end.

(** The quantity the spec compares with the threshold, for one signal:
    |(s_i - s_0) / (2 pi) - (e_i - e_0)|, with [s_0], [e_0] the calibration
    sample and the calibration expectation. *)
Definition phase_flip_difference (s_i s_0 e_i e_0 : F) : F :=
  fabs (fsub (fdiv (fsub s_i s_0) (fmul ftwo np_pi)) (fsub e_i e_0)).

(** That quantity for signal [j] at index [i] of the expectation sequence. *)
Definition signal_difference (i j : nat) : option F :=
  match sample_at i, sample_at 0,
        nth_error (data spec_file) i, nth_error (data spec_file) 0 with
  | Some s, Some s0, Some e, Some e0 =>
      match nth_error s j, nth_error s0 j, nth_error e j, nth_error e0 j with
      | Some s_i, Some s_0, Some e_i, Some e_0 =>
          Some (phase_flip_difference s_i s_0 e_i e_0)
      | _, _, _, _ => None
      end
  | _, _, _, _ => None
  end.

(** Signal [j] is off by more than the threshold at index [i]. *)
Definition exceeds (i j : nat) : bool :=
  match signal_difference i j with
  | Some d => fgt d threshold
  | None => false
  end.

(** Signal [j] is within the threshold at index [i]. *)
Definition within (i j : nat) : bool :=
  match signal_difference i j with
  | Some d => fle d threshold
  | None => false
  end.

(** The signals off by more than the threshold at index [i], in the order
    of the tracked signal set. *)
Definition exceeding (i : nat) : list nat :=
  filter (exceeds i) (seq 0 (length (names spec_file))).

(** The invariants of the data model (spec, section 3): the expectation
    sequence has its calibration point, one expected vector per time
    point, and every expected or sampled vector has one entry per tracked
    signal. *)
Record well_formed : Prop := {
  wf_calibration : 1 <= length (time spec_file);
  wf_data : length (data spec_file) = length (time spec_file);
  wf_rows : forall row, In row (data spec_file) ->
              length row = length (names spec_file);
  wf_samples : forall t v, In t (time spec_file) -> sample output t = inr v ->
                 length v = length (names spec_file)
}.

(** The trace can be sampled at index [i]. *)
Definition sampled (i : nat) : Prop := sample_at i <> None.
End Specification.

(** What the simulation run by [verify self params] hands to the checks. *)
Definition simulation_of {F E} {collab : Collaborators F E}
    (self : Verifier F) (params : option (list (string * F)))
  : result E CircuitSimulatorOutput :=
  fst (_simulate self (match params with None => [] | Some p => p end)).

(** A collaborator call made by [verify self params] raises [e]: the
    simulator does, in [change_parameters] or in [simulate], or the sampling
    function does at the first time point it fails on, the scan having
    passed every index before it. *)
Definition raised_by_collaborator {F E} {arith : Float64 F}
    {collab : Collaborators F E}
    (self : Verifier F) (params : option (list (string * F))) (e : E) : Prop :=
  let items := match params with None => [] | Some p => p end in
  fst (change_parameters (simulator_ self) (map fst items)) = inl e \/
  (exists simulator',
     change_parameters (simulator_ self) (map fst items) = (inr tt, simulator') /\
     fst (simulate simulator' (map snd items)) = inl e) \/
  (exists output i t,
     simulation_of self params = Return output /\
     nth_error (time (spec_file_ self)) i = Some t /\
     sample output t = inl e /\
     (forall k, k < i -> sampled (spec_file_ self) output k) /\
     (forall k, 1 <= k < i ->
        exceeding (spec_file_ self) output (threshold_ self) k = [])).

(** Two runs of the simulation hand the checks the same thing: the same
    exception, or outputs that sample alike at every expectation time. *)
Definition same_outputs {F E} {collab : Collaborators F E}
    (spec_file : SpecFile F) (r1 r2 : result E CircuitSimulatorOutput) : Prop :=
  match r1, r2 with
  | Return o1, Return o2 =>
      forall t, In t (time spec_file) -> sample o1 t = sample o2 t
  | Raise x1, Raise x2 => x1 = x2
  | _, _ => False
  end.

(** Two results agree up to a relation on what they return. *)
Definition result_rel {E A} (R : A -> A -> Prop) (r r' : result E A) : Prop :=
  match r, r' with
  | Return a, Return a' => R a a'
  | Raise x, Raise x' => x = x'
  | _, _ => False
  end.

(** ** Offsets

    A vector, a spec file and an output with the constant [c] added to every
    phase value (the times stay). *)
Definition shift {F} {arith : Float64 F} (c : F) (v : list F) : list F :=
  map (fun x => fadd x c) v.

Definition shift_spec {F} {arith : Float64 F} (c : F) (spec_file : SpecFile F)
  : SpecFile F :=
  {| names := names spec_file;
     time := time spec_file;
     data := map (shift c) (data spec_file) |}.

Definition shifted_output {F E} {arith : Float64 F} {collab : Collaborators F E}
    (c : F) (spec_file : SpecFile F) (o o' : CircuitSimulatorOutput) : Prop :=
  forall t, In t (time spec_file) ->
    sample o' t = match sample o t with
                  | inr v => inr (shift c v)
                  | inl e => inl e
                  end.

(** The outcome of a successful verification. *)
Definition success {F} : VerifierResult F :=
  {| succeed := true; failure_time := None; failure_point := None |}.

(** The outcome of a verification failing at time [t] on the signals [js]. *)
Definition failure {F} (t : F) (js : list nat) : VerifierResult F :=
  {| succeed := false; failure_time := Some t; failure_point := Some js |}.

(** ** A scripted simulator

    A collaborator whose trace is a given function of time: the simulator
    remembers the trace and parameter names it was last given, [simulate]
    hands out the script. *)

Record Scripted : Type := {
  traces_set : list PlotParameter;
  parameters_set : list string
}.

Definition scripted {F} (E : Type) (spec : string -> E + SpecFile F)
    (trace : list F -> E + (F -> E + list F)) : Collaborators F E := {|
  CircuitSimulator := Scripted;
  CircuitSimulatorOutput := F -> E + list F;
  new_CircuitSimulator := fun _ plots _ =>
    inr {| traces_set := plots; parameters_set := [] |};
  new_SpecFile := spec;
  change_traces := fun s plots =>
    (inr tt, {| traces_set := plots; parameters_set := parameters_set s |});
  change_parameters := fun s ps =>
    (inr tt, {| traces_set := traces_set s; parameters_set := ps |});
  simulate := fun s values => (trace values, s);
  sample := fun o t => o t
|}.

(** A trace given by a table: sampling at a tabulated time returns the row,
    sampling elsewhere raises, as a simulator does outside the range it
    produced. *)
Fixpoint table_trace {F} (eqb : F -> F -> bool) (table : list (F * list F))
    (t : F) : string + list F :=
  match table with
  | [] => inl "time out of range"%string
  | (t', v) :: table' => if eqb t t' then inr v else table_trace eqb table' t
  end.

(** ** The scenarios of the spec (section 8), in binary64

    One signal, expected to flip once per time unit, threshold 0.1; the
    trace follows the expectation up to time 2, where it reads [x] flips. *)
Module Scenario.
Open Scope float_scope.

Definition golden : SpecFile float :=
  {| names := ["a"%string];
     time := [0; 1; 2];
     data := [[0]; [1]; [2]] |}.

Definition trace (x : float) : float -> string + list float :=
  table_trace PrimFloat.eqb
    [(0, [0]); (1, [2 * np_pi * 1]); (2, [2 * np_pi * x])].

Definition bench (x : float) : Collaborators float string :=
  scripted (fun _ => inr golden) (fun _ => inr (trace x)).

(** 0.1 to the nearest double *)
Definition tenth : float := 0x1.999999999999ap-4.
(** 2.02 to the nearest double *)
Definition close_reading : float := 0x1.028f5c28f5c29p+1.
(** 2.3 to the nearest double *)
Definition far_reading : float := 0x1.2666666666666p+1.

Definition configuration (method : string) : VerifyConfiguration float :=
  {| method := method;
     circuit_path := "circuit.cir";
     file_path := "golden.spec";
     threshold := tenth;
     wrspice_compatibility := false |}.

(** The verifier [__init__] builds on this bench. *)
Definition verifier (x : float) : Verifier (collab := bench x) float :=
  {| simulator_ := ({| traces_set := [{| plot_name := "a" |}];
                       parameters_set := [] |} : @CircuitSimulator _ _ (bench x));
     spec_file_ := golden;
     threshold_ := tenth |}.

(** The same verifier after a run with one parameter: its simulator
    remembers the parameter name. *)
Definition verifier_rerun (x : float) : Verifier (collab := bench x) float :=
  {| simulator_ := ({| traces_set := [{| plot_name := "a" |}];
                       parameters_set := ["Ic"%string] |}
                     : @CircuitSimulator _ _ (bench x));
     spec_file_ := golden;
     threshold_ := tenth |}.

(** A simulation that stopped before time 2. *)
Definition short_trace : float -> string + list float :=
  table_trace PrimFloat.eqb [(0, [0]); (1, [2 * np_pi * 1])].

Definition short_bench : Collaborators float string :=
  scripted (fun _ => inr golden) (fun _ => inr short_trace).

Definition short_verifier : Verifier (collab := short_bench) float :=
  {| simulator_ := ({| traces_set := [{| plot_name := "a" |}];
                       parameters_set := [] |}
                     : @CircuitSimulator _ _ short_bench);
     spec_file_ := golden;
     threshold_ := tenth |}.

(** A verifier whose expectation sequence is the calibration point alone,
    with two tracked signals where the trace has one, and threshold 0. *)
Definition lone : Verifier (collab := bench far_reading) float :=
  {| simulator_ := ({| traces_set := []; parameters_set := [] |}
                     : @CircuitSimulator _ _ (bench far_reading));
     spec_file_ := {| names := ["a"%string; "b"%string];
                      time := [2];
                      data := [[2; 0]] |};
     threshold_ := 0 |}.

(** A bench whose first parameter is an offset added to the passing
    trace. *)
Definition offset_trace (c : float) : float -> string + list float :=
  table_trace PrimFloat.eqb
    [(0, shift c [0]);
     (1, shift c [2 * np_pi * 1]);
     (2, shift c [2 * np_pi * close_reading])].

Definition offset_bench : Collaborators float string :=
  scripted (fun _ => inr golden)
           (fun values => inr (offset_trace (hd 0 values))).

Definition offset_verifier (c : float) : Verifier (collab := offset_bench) float :=
  {| simulator_ := ({| traces_set := [{| plot_name := "a" |}];
                       parameters_set := [] |}
                     : @CircuitSimulator _ _ offset_bench);
     spec_file_ := shift_spec c golden;
     threshold_ := tenth |}.

(** A bench where nothing can be created. *)
Definition broken_bench : Collaborators float string :=
  {| CircuitSimulator := Scripted;
     CircuitSimulatorOutput := float -> string + list float;
     new_CircuitSimulator := fun _ _ _ => inl "simulator not found"%string;
     new_SpecFile := fun _ => inl "no such file"%string;
     change_traces := fun s _ => (inl "no simulator"%string, s);
     change_parameters := fun s _ => (inl "no simulator"%string, s);
     simulate := fun s _ => (inl "no simulator"%string, s);
     sample := fun o t => o t |}.
End Scenario.

(** ** A scenario in exact arithmetic

    One signal, threshold 1/10; the trace at time 1 reads 11/10 flips where
    one flip is expected: off by the threshold exactly. *)
Module Boundary.
Open Scope Q_scope.

Definition golden : SpecFile Q :=
  {| names := ["a"%string];
     time := [0; 1];
     data := [[0]; [1]] |}.

Definition trace : Q -> string + list Q :=
  table_trace Qeq_bool [(0, [0]); (1, [2 * np_pi * (11 # 10)])].

Definition bench : Collaborators Q string :=
  scripted (fun _ => inr golden) (fun _ => inr trace).

Definition verifier : Verifier (collab := bench) Q :=
  {| simulator_ := ({| traces_set := [{| plot_name := "a" |}];
                       parameters_set := [] |} : @CircuitSimulator _ _ bench);
     spec_file_ := golden;
     threshold_ := 1 # 10 |}.

(** A bench whose first parameter is an offset added to the trace. *)
Definition offset_trace (c : Q) : Q -> string + list Q :=
  table_trace Qeq_bool
    [(0, shift c [0]); (1, shift c [2 * np_pi * (11 # 10)])].

Definition offset_bench : Collaborators Q string :=
  scripted (fun _ => inr golden) (fun values => inr (offset_trace (hd 0 values))).

Definition offset_verifier (c : Q) : Verifier (collab := offset_bench) Q :=
  {| simulator_ := ({| traces_set := [{| plot_name := "a" |}];
                       parameters_set := [] |} : @CircuitSimulator _ _ offset_bench);
     spec_file_ := shift_spec c golden;
     threshold_ := 1 # 10 |}.
End Boundary.

(* ===================================================================== *)
(** * Part II-b. Plotting                                                 *)
(* ===================================================================== *)

(** ** What [plot] calls

    [plot] reads two attributes of the simulator output ([time_steps],
    [traces]), calls [get_data()] and reads [name] on each trace, and drives
    [matplotlib.pyplot].  The drawing state of pyplot is a mutable object,
    kept abstract: a call takes it and returns what it leaves, or raises. *)
Class Plotting (F E : Type) {collab : Collaborators F E} : Type := {
  Trace : Type;
  Pyplot : Type;
  (** [output.time_steps] *)
  output_time_steps : CircuitSimulatorOutput -> list F;
  (** [output.traces] *)
  output_traces : CircuitSimulatorOutput -> list Trace;
  (** [trace.get_data()] *)
  get_data : Trace -> E + list F;
  (** [trace.name] *)
  trace_name : Trace -> string;
  (** [plt.figure()] *)
  plt_figure : Pyplot -> (E + unit) * Pyplot;
  (** [plt.axvline(x)] *)
  plt_axvline : Pyplot -> F -> (E + unit) * Pyplot;
  (** [plt.plot(x, y, label=label)] *)
  plt_plot : Pyplot -> list F -> list F -> string -> (E + unit) * Pyplot;
  (** [plt.legend()] *)
  plt_legend : Pyplot -> (E + unit) * Pyplot;
  (** [plt.show()] *)
  plt_show : Pyplot -> (E + unit) * Pyplot
}.

Arguments Plotting F E {collab}.

Section Plot.
Context {F : Type} {arith : Float64 F} {E : Type} {collab : Collaborators F E}
        {plotting : Plotting F E}.

(** A computation that draws: it threads the pyplot state and may raise. *)
Definition Drawing (A : Type) : Type := Pyplot -> result E A * Pyplot.

Definition draw_ret {A} (a : A) : Drawing A := fun plt => (Return a, plt).

Definition draw_bind {A B} (m : Drawing A) (k : A -> Drawing B) : Drawing B :=
  fun plt =>
    match m plt with
    | (Return a, plt') => k a plt'
    | (Raise x, plt') => (Raise x, plt')
    end.

(** A call into pyplot. *)
Definition draw_call {A} (f : Pyplot -> (E + A) * Pyplot) : Drawing A :=
  fun plt => let (r, plt') := f plt in (call r, plt').

(** A call that does not draw. *)
Definition draw_pure {A} (r : E + A) : Drawing A := fun plt => (call r, plt).

(** A drawing raises only what a call raised. *)
Definition raises_calls {A} (m : Drawing A) : Prop :=
  forall plt x, fst (m plt) = Raise x -> exists e, x = CollaboratorError e.

(** [for sample_time in self.spec_file_.time(): plt.axvline(float(sample_time))] *)
Fixpoint plot_lines (times : list F) : Drawing unit :=
  match times with
  | [] => draw_ret tt
  | sample_time :: rest =>
      draw_bind (draw_call (fun plt => plt_axvline plt sample_time))
                (fun _ => plot_lines rest)
  end.

(** [for trace in output.traces:
       plt.plot(time_steps, trace.get_data(), label=trace.name)] *)
Fixpoint plot_traces (time_steps : list F) (traces : list Trace) : Drawing unit :=
  match traces with
  | [] => draw_ret tt
  | trace :: rest =>
      draw_bind (draw_pure (get_data trace)) (fun values =>
      draw_bind (draw_call (fun plt =>
                   plt_plot plt time_steps values (trace_name trace)))
                (fun _ => plot_traces time_steps rest))
  end.

(** [plot] after the simulation (lines 108-121). *)
Definition draw (spec_file : SpecFile F) (output : CircuitSimulatorOutput)
  : Drawing unit :=
  draw_bind (draw_call plt_figure) (fun _ =>
  draw_bind (plot_lines (time spec_file)) (fun _ =>
  let time_steps := output_time_steps output in
  draw_bind (plot_traces time_steps (output_traces output)) (fun _ =>
  draw_bind (draw_call plt_legend) (fun _ =>
  draw_call plt_show)))).

(** [Verifier.plot]: what it returns or raises, the verifier and pyplot as
    it leaves them. *)
Definition plot (self : Verifier F) (params : option (list (string * F)))
    (plt : Pyplot) : result E unit * Verifier F * Pyplot :=
  let params := match params with None => [] | Some p => p end in
  let (r, self') := _simulate self params in
  match r with
  | Raise x => (Raise x, self', plt)
  | Return output =>
      let (r', plt') := draw (spec_file_ self') output plt in
      (r', self', plt')
  end.
End Plot.

(** ** A pyplot that records

    The calls made, oldest first. *)
Inductive PlotCommand (F : Type) : Type :=
| CmdFigure
| CmdAxvline (x : F)
| CmdPlot (x y : list F) (label : string)
| CmdLegend
| CmdShow.

Arguments CmdFigure {F}.
Arguments CmdLegend {F}.
Arguments CmdShow {F}.

(** Traces are named lists of values; the output's [time_steps] and
    [traces] are given. *)
Definition recording {F E} {collab : Collaborators F E}
    (time_steps : CircuitSimulatorOutput -> list F)
    (traces : CircuitSimulatorOutput -> list (string * list F))
  : Plotting F E := {|
  Trace := string * list F;
  Pyplot := list (PlotCommand F);
  output_time_steps := time_steps;
  output_traces := traces;
  get_data := fun trace => inr (snd trace);
  trace_name := fst;
  plt_figure := fun plt => (inr tt, plt ++ [CmdFigure]);
  plt_axvline := fun plt x => (inr tt, plt ++ [CmdAxvline x]);
  plt_plot := fun plt x y label => (inr tt, plt ++ [CmdPlot x y label]);
  plt_legend := fun plt => (inr tt, plt ++ [CmdLegend]);
  plt_show := fun plt => (inr tt, plt ++ [CmdShow])
|}.

(** ** Further benches, in binary64 *)
Module Fixture.
Open Scope float_scope.

(** A spec file without a single time point. *)
Definition blank : SpecFile float :=
  {| names := ["a"%string]; time := []; data := [] |}.

Definition blank_verifier
  : Verifier (collab := Scenario.bench Scenario.far_reading) float :=
  {| simulator_ := ({| traces_set := []; parameters_set := [] |}
                     : @CircuitSimulator _ _ (Scenario.bench Scenario.far_reading));
     spec_file_ := blank;
     threshold_ := Scenario.tenth |}.

(** Two tracked signals in the spec file, three in the trace. *)
Definition pair : SpecFile float :=
  {| names := ["a"%string; "b"%string];
     time := [0; 1];
     data := [[0; 0]; [1; 1]] |}.

Definition triple_trace : float -> string + list float :=
  table_trace PrimFloat.eqb [(0, [0; 0; 0]); (1, [1; 1; 1])].

Definition triple_bench : Collaborators float string :=
  scripted (fun _ => inr pair) (fun _ => inr triple_trace).

Definition mismatched_verifier : Verifier (collab := triple_bench) float :=
  {| simulator_ := ({| traces_set := []; parameters_set := [] |}
                     : @CircuitSimulator _ _ triple_bench);
     spec_file_ := pair;
     threshold_ := Scenario.tenth |}.

(** A bench with two traces that both read 2.3 flips at time 1: run
    without parameters the trace goes on to time 2, run with a parameter
    it stops after time 1. *)
Definition long_trace : float -> string + list float :=
  table_trace PrimFloat.eqb
    [(0, [0]); (1, [2 * np_pi * Scenario.far_reading]); (2, [2 * np_pi * 2])].

Definition cut_trace : float -> string + list float :=
  table_trace PrimFloat.eqb
    [(0, [0]); (1, [2 * np_pi * Scenario.far_reading])].

Definition switch_bench : Collaborators float string :=
  scripted (fun _ => inr Scenario.golden)
           (fun values => inr (match values with
                               | [] => long_trace
                               | _ :: _ => cut_trace
                               end)).

Definition switch_verifier : Verifier (collab := switch_bench) float :=
  {| simulator_ := ({| traces_set := []; parameters_set := [] |}
                     : @CircuitSimulator _ _ switch_bench);
     spec_file_ := Scenario.golden;
     threshold_ := Scenario.tenth |}.

(** A trace that is not a number from time 1 on. *)
Definition nan_trace : float -> string + list float :=
  table_trace PrimFloat.eqb [(0, [0]); (1, [nan]); (2, [nan])].

Definition nan_bench : Collaborators float string :=
  scripted (fun _ => inr Scenario.golden) (fun _ => inr nan_trace).

Definition nan_verifier : Verifier (collab := nan_bench) float :=
  {| simulator_ := ({| traces_set := []; parameters_set := [] |}
                     : @CircuitSimulator _ _ nan_bench);
     spec_file_ := Scenario.golden;
     threshold_ := Scenario.tenth |}.

(** The passing scenario of the spec with the threshold -0.1. *)
Definition negative_verifier
  : Verifier (collab := Scenario.bench Scenario.close_reading) float :=
  {| simulator_ := ({| traces_set := []; parameters_set := [] |}
                     : @CircuitSimulator _ _ (Scenario.bench Scenario.close_reading));
     spec_file_ := Scenario.golden;
     threshold_ := - Scenario.tenth |}.

(** The failing scenario of the spec with an infinite threshold. *)
Definition lenient_verifier
  : Verifier (collab := Scenario.bench Scenario.far_reading) float :=
  {| simulator_ := ({| traces_set := []; parameters_set := [] |}
                     : @CircuitSimulator _ _ (Scenario.bench Scenario.far_reading));
     spec_file_ := Scenario.golden;
     threshold_ := infinity |}.

(** The bench of the spec's scenarios with a recording pyplot: the output
    exposes three time steps and one trace, named after the signal. *)
Definition studio (x : float) : Plotting float string (collab := Scenario.bench x) :=
  recording (collab := Scenario.bench x)
    (fun _ => [0; 1; 2])
    (fun _ => [("a"%string, [0; 2 * np_pi * 1; 2 * np_pi * x])]).

(** A verifier on the bench where nothing can be created, and a
    recording pyplot for it. *)
Definition broken_verifier : Verifier (collab := Scenario.broken_bench) float :=
  {| simulator_ := ({| traces_set := []; parameters_set := [] |}
                     : @CircuitSimulator _ _ Scenario.broken_bench);
     spec_file_ := Scenario.golden;
     threshold_ := Scenario.tenth |}.

Definition broken_studio : Plotting float string (collab := Scenario.broken_bench) :=
  recording (collab := Scenario.broken_bench) (fun _ => []) (fun _ => []).

(** One tracked signal in the spec file, three in the trace; the third
    reads 2.3 flips at time 1. *)
Definition column : SpecFile float :=
  {| names := ["a"%string]; time := [0; 1]; data := [[0]; [1]] |}.

Definition wide_trace : float -> string + list float :=
  table_trace PrimFloat.eqb
    [(0, [0; 0; 0]);
     (1, [2 * np_pi * 1; 2 * np_pi * 1; 2 * np_pi * Scenario.far_reading])].

Definition wide_bench : Collaborators float string :=
  scripted (fun _ => inr column) (fun _ => inr wide_trace).

Definition wide_verifier : Verifier (collab := wide_bench) float :=
  {| simulator_ := ({| traces_set := []; parameters_set := [] |}
                     : @CircuitSimulator _ _ wide_bench);
     spec_file_ := column;
     threshold_ := Scenario.tenth |}.
End Fixture.

(** ** Further benches, in exact arithmetic *)
Module QFixture.
Open Scope Q_scope.

(** The boundary scenario with the threshold 1/2. *)
Definition wide_verifier : Verifier (collab := Boundary.bench) Q :=
  {| simulator_ := simulator_ Boundary.verifier;
     spec_file_ := Boundary.golden;
     threshold_ := 1 # 2 |}.

End QFixture.

(* ===================================================================== *)
(** * Part III. Lemmas on the numpy layer and on the loop                 *)
(* ===================================================================== *)

Section NumpyFacts.
Context {F : Type} {arith : Float64 F} {E : Type}.

Lemma np_getitem_Return {A} (a : list A) i x :
  np_getitem (E := E) a i = Return x <-> nth_error a i = Some x.
Proof.
  unfold np_getitem. destruct (nth_error a i); split; congruence.
Qed.

Lemma np_getitem_Raise {A} (a : list A) i x :
  np_getitem (E := E) a i = Raise x -> x = IndexError /\ length a <= i.
Proof.
  unfold np_getitem. destruct (nth_error a i) eqn:Hn; [discriminate|].
  intros [= <-]. split; [reflexivity|]. now apply nth_error_None.
Qed.

(** Rows of one length make a two-dimensional array. *)
Lemma np_array2_rectangular (rows : list (list F)) n :
  (forall row, In row rows -> length row = n) ->
  np_array2 (E := E) rows = Return rows.
Proof.
  destruct rows as [|r rs]; [reflexivity|]. intros Hn. simpl.
  replace (forallb _ rs) with true; [reflexivity|].
  symmetry. apply forallb_forall. intros r' Hr'. apply Nat.eqb_eq.
  rewrite (Hn r) by now left. apply Hn. now right.
Qed.

(** [np.array] returns its rows or raises [ValueError]. *)
Lemma np_array2_cases (rows : list (list F)) :
  np_array2 (E := E) rows = Return rows \/ np_array2 (E := E) rows = Raise ValueError.
Proof.
  destruct rows as [|r rs]; [now left|]. simpl.
  destruct (forallb _ rs); [now left | now right].
Qed.

Lemma np_binop_aligned f (a b : list F) :
  length a = length b -> np_binop (E := E) f a b = Return (zip_with f a b).
Proof.
  intros Hl. unfold np_binop. now rewrite Hl, Nat.eqb_refl.
Qed.

Lemma zip_with_length f (a b : list F) :
  length a = length b -> length (zip_with f a b) = length a.
Proof.
  intros Hl. unfold zip_with. rewrite length_map, length_combine. lia.
Qed.

Lemma zip_with_nth_error f (a b : list F) j :
  nth_error (zip_with f a b) j =
  match nth_error a j, nth_error b j with
  | Some x, Some y => Some (f x y)
  | _, _ => None
  end.
Proof.
  revert b j. induction a as [|x a IH]; intros [|y b] [|j]; simpl; try reflexivity.
  - now destruct (nth_error a j).
  - apply IH.
Qed.

(** The shapes an elementwise operation can produce. *)
Lemma np_binop_length f (a b r : list F) :
  np_binop (E := E) f a b = Return r ->
  length r = length a \/ length r = length b.
Proof.
  unfold np_binop. destruct (length a =? length b) eqn:Hl.
  - intros [= <-]. left. apply zip_with_length. now apply Nat.eqb_eq.
  - destruct a as [|x [|x' a]]; destruct b as [|y [|y' b]];
      simpl in *; try discriminate; intros [= <-]; simpl;
      rewrite ?length_map; auto.
Qed.

Lemma np_binop_Raise f (a b : list F) x :
  np_binop (E := E) f a b = Raise x -> x = ValueError /\ length a <> length b.
Proof.
  unfold np_binop. destruct (length a =? length b) eqn:Hl; [discriminate|].
  apply Nat.eqb_neq in Hl.
  destruct a as [|? [|? ?]]; destruct b as [|? [|? ?]]; try discriminate;
    intros [= <-]; auto.
Qed.

(** A list is the table of any function that describes its entries. *)
Lemma tabulate {A} (l : list A) (g : nat -> A) :
  (forall j, j < length l -> nth_error l j = Some (g j)) ->
  l = map g (seq 0 (length l)).
Proof.
  revert g. induction l as [|x l IH]; intros g Hg; [reflexivity|].
  simpl. f_equal.
  - specialize (Hg 0 (Nat.lt_0_succ _)). simpl in Hg. congruence.
  - rewrite <- seq_shift, map_map. apply IH.
    intros j Hj. apply (Hg (S j)). simpl. lia.
Qed.

Lemma np_where_from_tabulated (g : nat -> bool) k n :
  np_where_from k (map g (seq k n)) = filter g (seq k n).
Proof.
  revert k. induction n as [|n IH]; intros k; [reflexivity|].
  simpl. rewrite IH. reflexivity.
Qed.

Lemma np_where_tabulated (g : nat -> bool) n :
  np_where (map g (seq 0 n)) = filter g (seq 0 n).
Proof. apply np_where_from_tabulated. Qed.

Lemma np_any_tabulated (g : nat -> bool) (l : list nat) :
  np_any (map g l) = match filter g l with [] => false | _ :: _ => true end.
Proof.
  unfold np_any. induction l as [|k l IH]; [reflexivity|].
  simpl. destruct (g k); [reflexivity | exact IH].
Qed.

(** [np.where] lists positions of the mask only, in increasing order, and
    is empty exactly when [np.any] is false. *)
Lemma np_where_from_bounds k (mask : list bool) j :
  In j (np_where_from k mask) -> k <= j < k + length mask.
Proof.
  revert k. induction mask as [|b mask IH]; intros k; simpl; [tauto|].
  destruct b; simpl; intros Hj.
  - destruct Hj as [<- | Hj]; [lia|]. apply IH in Hj. lia.
  - apply IH in Hj. lia.
Qed.

Lemma np_where_from_sorted k (mask : list bool) :
  StronglySorted lt (np_where_from k mask).
Proof.
  revert k. induction mask as [|b mask IH]; intros k; simpl; [constructor|].
  destruct b; [|apply IH]. constructor; [apply IH|].
  apply Forall_forall. intros j Hj. apply np_where_from_bounds in Hj. lia.
Qed.

Lemma np_any_where (mask : list bool) :
  np_any mask = true -> np_where mask <> [].
Proof.
  unfold np_any, np_where. generalize 0.
  induction mask as [|b mask IH]; intros k; simpl; [discriminate|].
  destruct b; simpl; [discriminate | apply IH].
Qed.
End NumpyFacts.

Section LoopFacts.
Context {F E : Type}.
Implicit Types (step : nat -> result E (option (VerifierResult F))).

(** The loop runs up to the first index whose iteration does not fall
    through, and continues from there. *)
Lemma verify_loop_first step a len i :
  a <= i < a + len ->
  (forall k, a <= k < i -> step k = Return None) ->
  verify_loop step (seq a len) =
    (r <- step i ;;
     match r with
     | Some found => Return found
     | None => verify_loop step (seq (S i) (a + len - S i))
     end).
Proof.
  revert a. induction len as [|len IH]; intros a Hi Hpass; [lia|].
  simpl. destruct (Nat.eq_dec a i) as [-> | Hne].
  - replace (i + S len - S i) with len by lia. reflexivity.
  - rewrite (Hpass a) by lia. simpl.
    rewrite (IH (S a)) by (try lia; intros; apply Hpass; lia).
    replace (S a + len - S i) with (a + S len - S i) by lia. reflexivity.
Qed.

Lemma verify_loop_pass step a len :
  (forall k, a <= k < a + len -> step k = Return None) ->
  verify_loop step (seq a len) = Return success.
Proof.
  revert a. induction len as [|len IH]; intros a Hpass; [reflexivity|].
  simpl. rewrite (Hpass a) by lia. simpl. apply IH. intros; apply Hpass; lia.
Qed.

(** Whatever the loop does, some first index made it do so. *)
Lemma verify_loop_inv step a len :
  match verify_loop step (seq a len) with
  | Return r =>
      (r = success /\ forall k, a <= k < a + len -> step k = Return None) \/
      (exists i, a <= i < a + len /\
                 (forall k, a <= k < i -> step k = Return None) /\
                 step i = Return (Some r))
  | Raise x =>
      exists i, a <= i < a + len /\
                (forall k, a <= k < i -> step k = Return None) /\
                step i = Raise x
  end.
Proof.
  revert a. induction len as [|len IH]; intros a.
  - simpl. left. split; [reflexivity | intros; lia].
  - simpl. destruct (step a) as [[found|]|x] eqn:Ha; simpl.
    + right. exists a. repeat split; [lia | lia | intros; lia | exact Ha].
    + specialize (IH (S a)).
      assert (Hshift : forall i, S a <= i ->
                (forall k, S a <= k < i -> step k = Return None) ->
                forall k, a <= k < i -> step k = Return None).
      { intros i Hi Hk k Hr. destruct (Nat.eq_dec k a) as [-> | ?];
          [exact Ha | apply Hk; lia]. }
      destruct (verify_loop step (seq (S a) len)) as [r|x].
      * destruct IH as [[-> Hall] | (i & Hi & Hpre & Hst)].
        -- left. split; [reflexivity|]. apply Hshift; [lia|].
           intros; apply Hall; lia.
        -- right. exists i. repeat split; try lia; [|exact Hst].
           apply Hshift; [lia | exact Hpre].
      * destruct IH as (i & Hi & Hpre & Hst).
        exists i. repeat split; try lia; [|exact Hst].
        apply Hshift; [lia | exact Hpre].
    + exists a. repeat split; [lia | lia | intros; lia | exact Ha].
Qed.

(** Only the iterations at the visited indices matter. *)
Lemma verify_loop_ext step step' (l : list nat) :
  (forall k, In k l -> step k = step' k) ->
  verify_loop step l = verify_loop step' l.
Proof.
  induction l as [|k l IH]; intros Hext; [reflexivity|].
  simpl. rewrite <- (Hext k) by now left.
  destruct (step k) as [[found|]|x]; simpl; try reflexivity.
  apply IH. intros; apply Hext; now right.
Qed.
End LoopFacts.

Section DifferenceFacts.
Context {F : Type} {arith : Float64 F} {E : Type} {collab : Collaborators F E}.

(** The vector [difference] of line 88, for operands of one shape. *)
Lemma difference_entry (s s0 e e0 : list F) j :
  nth_error
    (np_abs (zip_with fsub
               (np_div_scalar (zip_with fsub s s0) (fmul ftwo np_pi))
               (zip_with fsub e e0))) j =
  match nth_error s j, nth_error s0 j, nth_error e j, nth_error e0 j with
  | Some s_i, Some s_0, Some e_i, Some e_0 =>
      Some (phase_flip_difference s_i s_0 e_i e_0)
  | _, _, _, _ => None
  end.
Proof.
  unfold np_abs, np_div_scalar.
  rewrite nth_error_map, zip_with_nth_error, nth_error_map, !zip_with_nth_error.
  destruct (nth_error s j), (nth_error s0 j), (nth_error e j), (nth_error e0 j);
    reflexivity.
Qed.

Lemma difference_length (s s0 e e0 : list F) m :
  length s = m -> length s0 = m -> length e = m -> length e0 = m ->
  length
    (np_abs (zip_with fsub
               (np_div_scalar (zip_with fsub s s0) (fmul ftwo np_pi))
               (zip_with fsub e e0))) = m.
Proof.
  intros Ls Ls0 Le Le0. unfold np_abs, np_div_scalar.
  rewrite length_map, zip_with_length;
    rewrite ?length_map, !zip_with_length; congruence.
Qed.

(** One iteration on operands of one shape, in the code's own terms. *)
Lemma verify_step_vectors threshold (output : CircuitSimulatorOutput)
    time_steps phase_flips (s s0 e e0 : list F) i t m :
  nth_error time_steps i = Some t -> sample output t = inr s ->
  nth_error phase_flips i = Some e ->
  length s = m -> length s0 = m -> length e = m -> length e0 = m ->
  let difference :=
    np_abs (zip_with fsub
              (np_div_scalar (zip_with fsub s s0) (fmul ftwo np_pi))
              (zip_with fsub e e0)) in
  verify_step threshold output time_steps phase_flips e0 s0 i =
    Return (if np_any (np_gt_scalar difference threshold)
            then Some (failure t (np_where (np_gt_scalar difference threshold)))
            else None).
Proof.
  intros Ht Hs He Ls Ls0 Le Le0 difference.
  unfold verify_step, np_getitem, np_sub. rewrite Ht. cbn [bind]. rewrite Hs.
  cbn [call bind]. rewrite np_binop_aligned by congruence. cbn [bind].
  rewrite He. cbn [bind]. rewrite np_binop_aligned by congruence. cbn [bind].
  rewrite np_binop_aligned
    by (unfold np_div_scalar; rewrite length_map, !zip_with_length; congruence).
  cbn [bind]. fold difference.
  destruct (np_any (np_gt_scalar difference threshold)); reflexivity.
Qed.
End DifferenceFacts.

Section StepFacts.
Context {F : Type} {arith : Float64 F} {E : Type} {collab : Collaborators F E}.

Variable spec_file : SpecFile F.
Variable output : CircuitSimulatorOutput.
Variable threshold : F.

Let n := length (names spec_file).

Lemma sample_at_Some i v :
  sample_at spec_file output i = Some v <->
  exists t, nth_error (time spec_file) i = Some t /\ sample output t = inr v.
Proof.
  unfold sample_at. split.
  - destruct (nth_error (time spec_file) i) as [t|]; [|discriminate].
    destruct (sample output t) eqn:Hs; [discriminate|].
    intros [= <-]. now exists t.
  - intros (t & -> & ->). reflexivity.
Qed.

(** One iteration on vectors of the right shape: the mask numpy computes
    is the table of [exceeds], so the iteration returns exactly when some
    signal is off by more than the threshold, with those signals. *)
Lemma verify_step_aligned i t0 t s s0 e e0 :
  nth_error (time spec_file) 0 = Some t0 -> sample output t0 = inr s0 ->
  nth_error (data spec_file) 0 = Some e0 ->
  nth_error (time spec_file) i = Some t -> sample output t = inr s ->
  nth_error (data spec_file) i = Some e ->
  length s = n -> length s0 = n -> length e = n -> length e0 = n ->
  verify_step threshold output (time spec_file) (data spec_file) e0 s0 i =
    Return (match exceeding spec_file output threshold i with
            | [] => None
            | _ :: _ => Some (failure t (exceeding spec_file output threshold i))
            end).
Proof.
  intros Ht0 Hs0 He0 Ht Hs He Ls Ls0 Le Le0.
  etransitivity;
    [eapply verify_step_vectors with (m := n); eassumption|].
  set (difference := np_abs _).
  assert (Hlen : length (np_gt_scalar difference threshold) = n).
  { unfold np_gt_scalar. rewrite length_map. now apply difference_length. }
  assert (Hmask : np_gt_scalar difference threshold =
                  map (exceeds spec_file output threshold i) (seq 0 n)).
  { rewrite <- Hlen. apply tabulate. rewrite Hlen. intros j Hj.
    unfold np_gt_scalar, difference. rewrite nth_error_map, difference_entry.
    unfold exceeds, signal_difference, sample_at.
    rewrite Ht, Hs, Ht0, Hs0, He, He0.
    destruct (nth_error s j) eqn:E1; [|apply nth_error_None in E1; lia].
    destruct (nth_error s0 j) eqn:E2; [|apply nth_error_None in E2; lia].
    destruct (nth_error e j) eqn:E3; [|apply nth_error_None in E3; lia].
    destruct (nth_error e0 j) eqn:E4; [|apply nth_error_None in E4; lia].
    reflexivity. }
  rewrite Hmask, np_any_tabulated, np_where_tabulated.
  fold n. unfold exceeding. fold n.
  destruct (filter _ (seq 0 n)); reflexivity.
Qed.

(** An iteration can only return a failure at its own time point, on the
    positions of a mask that has a [True]. *)
Lemma verify_step_Some time_steps phase_flips e0 s0 i r :
  verify_step threshold output time_steps phase_flips e0 s0 i = Return (Some r) ->
  exists t mask,
    nth_error time_steps i = Some t /\ np_any mask = true /\
    r = failure t (np_where mask).
Proof.
  unfold verify_step, np_getitem.
  destruct (nth_error time_steps i) as [t|]; [|discriminate]. simpl.
  destruct (call (sample output t)) as [s|]; [|discriminate]. simpl.
  destruct (np_sub s s0) as [d|]; [|discriminate]. simpl.
  destruct (nth_error phase_flips i) as [e|]; [|discriminate]. simpl.
  destruct (np_sub e e0) as [d'|]; [|discriminate]. simpl.
  destruct (np_sub _ d') as [d''|]; [|discriminate]. simpl.
  destruct (np_any _) eqn:Hany; [|discriminate].
  intros [= <-]. exists t. eexists. repeat split. exact Hany.
Qed.
End StepFacts.

Section CheckFacts.
Context {F : Type} {arith : Float64 F} {E : Type} {collab : Collaborators F E}.

Variable spec_file : SpecFile F.
Variable output : CircuitSimulatorOutput.
Variable threshold : F.

Let n := length (names spec_file).
Let N := length (time spec_file).

Hypothesis WF : well_formed spec_file output.

(** On well-formed data the preamble of [verify] cannot raise by itself:
    once the calibration sample is there, the loop starts. *)
Lemma check_calibrated s0 :
  sample_at spec_file output 0 = Some s0 ->
  exists t0 e0,
    nth_error (time spec_file) 0 = Some t0 /\
    sample output t0 = inr s0 /\
    nth_error (data spec_file) 0 = Some e0 /\
    length s0 = n /\ length e0 = n /\
    check spec_file threshold output =
      verify_loop
        (verify_step threshold output (time spec_file) (data spec_file) e0 s0)
        (seq 1 (N - 1)).
Proof.
  intros Hs0. apply sample_at_Some in Hs0 as (t0 & Ht0 & Hs0).
  destruct (nth_error (data spec_file) 0) as [e0|] eqn:He0.
  2:{ apply nth_error_None in He0. destruct WF as [Hc Hd _ _]. lia. }
  exists t0, e0. repeat split; try assumption.
  - eapply (wf_samples WF); [eapply nth_error_In; exact Ht0 | exact Hs0].
  - eapply (wf_rows WF), nth_error_In; exact He0.
  - unfold check.
    rewrite np_array2_rectangular with (n := n) by (apply WF).
    cbn [bind]. unfold np_getitem. rewrite He0. cbn [bind]. rewrite Ht0. cbn [bind].
    rewrite Hs0. reflexivity.
Qed.

(** When the calibration sample cannot be taken, [verify] raises what the
    sampling function raised. *)
Lemma check_calibration_raises t0 e :
  nth_error (time spec_file) 0 = Some t0 -> sample output t0 = inl e ->
  check spec_file threshold output = Raise (CollaboratorError e).
Proof.
  intros Ht0 Hs0.
  destruct (nth_error (data spec_file) 0) as [e0|] eqn:He0.
  2:{ apply nth_error_None in He0. destruct WF as [Hc Hd _ _]. lia. }
  unfold check.
  rewrite np_array2_rectangular with (n := n) by (apply WF).
  cbn [bind]. unfold np_getitem. rewrite He0. cbn [bind].
  rewrite Ht0. cbn [bind]. rewrite Hs0. reflexivity.
Qed.

Variables (t0 : F) (s0 e0 : list F).
Hypothesis Ht0 : nth_error (time spec_file) 0 = Some t0.
Hypothesis Hs0 : sample output t0 = inr s0.
Hypothesis He0 : nth_error (data spec_file) 0 = Some e0.

Let step := verify_step threshold output (time spec_file) (data spec_file) e0 s0.

(** An iteration whose sample is there decides by [exceeding]. *)
Lemma step_sampled i t s :
  nth_error (time spec_file) i = Some t -> sample output t = inr s ->
  step i = Return (match exceeding spec_file output threshold i with
                   | [] => None
                   | _ :: _ => Some (failure t (exceeding spec_file output threshold i))
                   end).
Proof.
  intros Ht Hs.
  destruct (nth_error (data spec_file) i) as [e|] eqn:He.
  2:{ apply nth_error_None in He.
      assert (i < N) by (apply nth_error_Some; fold N; congruence).
      destruct WF as [_ Hd _ _]. fold N in Hd. lia. }
  unfold step. eapply verify_step_aligned; eauto.
  - eapply (wf_samples WF); [eapply nth_error_In; exact Ht | exact Hs].
  - eapply (wf_samples WF); [eapply nth_error_In; exact Ht0 | exact Hs0].
  - eapply (wf_rows WF), nth_error_In; exact He.
  - eapply (wf_rows WF), nth_error_In; exact He0.
Qed.

(** An iteration whose sample cannot be taken raises what the sampling
    function raised. *)
Lemma step_unsampled i t e :
  nth_error (time spec_file) i = Some t -> sample output t = inl e ->
  step i = Raise (CollaboratorError e).
Proof.
  intros Ht Hs. unfold step, verify_step, np_getitem.
  rewrite Ht. simpl. rewrite Hs. reflexivity.
Qed.

(** No signal off at [i] means an empty [exceeding i], and conversely. *)
Lemma exceeding_nil i :
  exceeding spec_file output threshold i = [] <->
  forall j, j < n -> exceeds spec_file output threshold i j = false.
Proof.
  unfold exceeding. fold n. split.
  - intros Hnil j Hj.
    destruct (exceeds spec_file output threshold i j) eqn:Hex; [|reflexivity].
    assert (Hin : In j (filter (exceeds spec_file output threshold i) (seq 0 n))).
    { apply filter_In. split; [apply in_seq; lia | exact Hex]. }
    rewrite Hnil in Hin. destruct Hin.
  - intros Hall.
    destruct (filter _ (seq 0 n)) as [|j l] eqn:Hf; [reflexivity|].
    assert (Hin : In j (filter (exceeds spec_file output threshold i) (seq 0 n)))
      by (rewrite Hf; now left).
    apply filter_In in Hin as [Hj Hex]. apply in_seq in Hj.
    rewrite Hall in Hex by lia. discriminate.
Qed.
End CheckFacts.

Section ExceedingFacts.
Context {F : Type} {arith : Float64 F} {E : Type} {collab : Collaborators F E}.

Variable spec_file : SpecFile F.
Variable output : CircuitSimulatorOutput.
Variable threshold : F.

Lemma exceeding_In i j :
  In j (exceeding spec_file output threshold i) <->
  j < length (names spec_file) /\ exceeds spec_file output threshold i j = true.
Proof.
  unfold exceeding. rewrite filter_In, in_seq. intuition lia.
Qed.

Lemma exceeding_sorted i :
  StronglySorted lt (exceeding spec_file output threshold i).
Proof.
  unfold exceeding. generalize 0 as a.
  induction (length (names spec_file)) as [|m IH]; intros a; [constructor|].
  simpl. destruct (exceeds spec_file output threshold i a).
  - constructor; [apply IH|].
    apply Forall_forall. intros j Hj. apply filter_In in Hj as [Hj _].
    apply in_seq in Hj. lia.
  - apply IH.
Qed.
End ExceedingFacts.

Section VerifyFacts.
Context {F : Type} {arith : Float64 F} {E : Type} {collab : Collaborators F E}.

Lemma split_items_from (params : list (string * F)) ks vs :
  fold_left
    (fun (acc : list string * list F) (item : string * F) =>
       (fst acc ++ [fst item], snd acc ++ [snd item]))
    params (ks, vs)
  = (ks ++ map fst params, vs ++ map snd params).
Proof.
  revert ks vs. induction params as [|[k v] params IH]; intros ks vs; simpl.
  - now rewrite !app_nil_r.
  - rewrite IH. simpl. now rewrite <- !app_assoc.
Qed.

(** The two lists [_simulate] builds are the keys and the values of the
    dictionary, in its order. *)
Lemma split_items_map (params : list (string * F)) :
  split_items params = (map fst params, map snd params).
Proof. unfold split_items. now rewrite split_items_from. Qed.

(** [_simulate] touches the simulator only. *)
Lemma _simulate_frame (self : Verifier F) params :
  spec_file_ (snd (_simulate self params)) = spec_file_ self /\
  threshold_ (snd (_simulate self params)) = threshold_ self.
Proof.
  unfold _simulate. destruct (split_items params) as [ks vs].
  destruct (change_parameters (simulator_ self) ks) as [[e|u] sim'].
  - split; reflexivity.
  - destruct (simulate sim' vs) as [o sim'']. split; reflexivity.
Qed.

(** [verify] is the checks applied to what the simulation returned. *)
Lemma verify_check (self : Verifier F) params :
  fst (verify self params) =
    (output <- simulation_of self params ;;
     check (spec_file_ self) (threshold_ self) output).
Proof.
  unfold verify, simulation_of.
  pose proof (_simulate_frame self
                (match params with None => [] | Some p => p end)) as [Hs Ht].
  destruct (_simulate self _) as [r self']. simpl in *.
  now rewrite Hs, Ht.
Qed.

(** The exceptions of [_simulate] are those of the simulator. *)
Lemma _simulate_calls (self : Verifier F) params :
  fst (_simulate self params) =
    match change_parameters (simulator_ self) (map fst params) with
    | (inl e, _) => Raise (CollaboratorError e)
    | (inr _, simulator') => call (fst (simulate simulator' (map snd params)))
    end.
Proof.
  unfold _simulate. rewrite split_items_map.
  destruct (change_parameters _ _) as [[e|u] sim']; [reflexivity|].
  destruct (simulate sim' _) as [o sim'']. reflexivity.
Qed.

Variable self : Verifier F.
Variable params : option (list (string * F)).
Variable output : CircuitSimulatorOutput.

Let spec_file := spec_file_ self.
Let threshold := threshold_ self.
Let n := length (names spec_file).
Let N := length (time spec_file).

Hypothesis Hsim : simulation_of self params = Return output.
Hypothesis WF : well_formed spec_file output.

(** The scan stops at the first index where a signal is off. *)
Lemma verify_stops_at_first i t_i :
  1 <= i -> nth_error (time spec_file) i = Some t_i ->
  (forall k, k <= i -> sampled spec_file output k) ->
  exceeding spec_file output threshold i <> [] ->
  (forall k, 1 <= k < i -> exceeding spec_file output threshold k = []) ->
  fst (verify self params) =
    Return (failure t_i (exceeding spec_file output threshold i)).
Proof.
  intros Hi Hti Hsampled Hex Hfirst.
  rewrite verify_check, Hsim. cbn [bind]. fold spec_file threshold.
  destruct (sample_at spec_file output 0) as [s0|] eqn:Hs0;
    [|exfalso; apply (Hsampled 0); [lia | exact Hs0]].
  destruct (check_calibrated threshold WF Hs0)
    as (t0 & e0 & Ht0 & Hs0' & He0 & _ & _ & ->).
  assert (HiN : i < N) by (apply nth_error_Some; fold spec_file; congruence).
  rewrite (@verify_loop_first _ _ _ 1 (N - 1) i); [ | lia | ].
  - destruct (sample_at spec_file output i) as [s|] eqn:Hs;
      [|exfalso; apply (Hsampled i); [lia | exact Hs]].
    apply sample_at_Some in Hs as (t & Ht & Hs).
    assert (t = t_i) by congruence. subst t.
    rewrite (step_sampled threshold WF Ht0 Hs0' He0 _ Ht Hs). cbn [bind].
    destruct (exceeding spec_file output threshold i); [congruence | reflexivity].
  - intros k Hk.
    destruct (sample_at spec_file output k) as [s|] eqn:Hs;
      [|exfalso; apply (Hsampled k); [lia | exact Hs]].
    apply sample_at_Some in Hs as (t & Ht & Hs).
    rewrite (step_sampled threshold WF Ht0 Hs0' He0 _ Ht Hs).
    now rewrite Hfirst by lia.
Qed.

(** The scan succeeds when no signal is off at any index. *)
Lemma verify_passes_all :
  (forall k, k < N -> sampled spec_file output k) ->
  (forall k, 1 <= k < N -> exceeding spec_file output threshold k = []) ->
  fst (verify self params) = Return success.
Proof.
  intros Hsampled Hnone.
  rewrite verify_check, Hsim. cbn [bind]. fold spec_file threshold.
  assert (HN : 1 <= N) by apply WF.
  destruct (sample_at spec_file output 0) as [s0|] eqn:Hs0;
    [|exfalso; apply (Hsampled 0); [lia | exact Hs0]].
  destruct (check_calibrated threshold WF Hs0)
    as (t0 & e0 & Ht0 & Hs0' & He0 & _ & _ & ->).
  apply verify_loop_pass. intros k Hk.
  destruct (sample_at spec_file output k) as [s|] eqn:Hs;
    [|exfalso; apply (Hsampled k); [lia | exact Hs]].
  apply sample_at_Some in Hs as (t & Ht & Hs).
  rewrite (step_sampled threshold WF Ht0 Hs0' He0 _ Ht Hs).
  now rewrite Hnone by lia.
Qed.
End VerifyFacts.

Section CheckInversion.
Context {F : Type} {arith : Float64 F} {E : Type} {collab : Collaborators F E}.

Variable spec_file : SpecFile F.
Variable output : CircuitSimulatorOutput.
Variable threshold : F.

(** Whatever the data, a result of the checks is the success or a failure
    at a time point past the calibration point. *)
Lemma check_Return r :
  check spec_file threshold output = Return r ->
  r = success \/
  exists i t mask,
    1 <= i /\ nth_error (time spec_file) i = Some t /\
    np_any mask = true /\ r = failure t (np_where mask).
Proof.
  unfold check.
  destruct (np_array2 (data spec_file)) as [phase_flips|]; [|discriminate].
  cbn [bind].
  destruct (np_getitem phase_flips 0) as [e0|]; [|discriminate]. cbn [bind].
  destruct (np_getitem (time spec_file) 0) as [t0|]; [|discriminate]. cbn [bind].
  destruct (call (sample output t0)) as [s0|]; [|discriminate]. cbn [bind].
  intros Hloop.
  pose proof (verify_loop_inv
                (verify_step threshold output (time spec_file) phase_flips e0 s0)
                1 (length (time spec_file) - 1)) as Hinv.
  rewrite Hloop in Hinv. destruct Hinv as [[-> _] | (i & Hi & _ & Hstep)].
  - now left.
  - right. apply verify_step_Some in Hstep as (t & mask & Ht & Hany & ->).
    exists i, t, mask. repeat split; [lia | assumption | assumption].
Qed.

(** What an iteration can raise: numpy's own exceptions on data of the
    wrong shape, or what the sampling function raised. *)
Lemma verify_step_Raise time_steps phase_flips e0 s0 i x :
  verify_step threshold output time_steps phase_flips e0 s0 i = Raise x ->
  x = IndexError \/ x = ValueError \/
  exists t e, nth_error time_steps i = Some t /\ sample output t = inl e /\
              x = CollaboratorError e.
Proof.
  unfold verify_step, np_getitem.
  destruct (nth_error time_steps i) as [t|]; [|intros [= <-]; now left].
  cbn [bind].
  destruct (sample output t) as [e|s] eqn:Hs;
    [intros [= <-]; right; right; now exists t, e|].
  cbn [call bind]. unfold np_sub.
  destruct (np_binop fsub s s0) as [d|x1] eqn:H1;
    [|intros [= <-]; apply np_binop_Raise in H1 as [-> _]; right; now left].
  cbn [bind].
  destruct (nth_error phase_flips i) as [e|]; [|intros [= <-]; now left].
  cbn [bind].
  destruct (np_binop fsub e e0) as [p|x2] eqn:H2;
    [|intros [= <-]; apply np_binop_Raise in H2 as [-> _]; right; now left].
  cbn [bind].
  destruct (np_binop fsub _ p) as [delta|x3] eqn:H3;
    [|intros [= <-]; apply np_binop_Raise in H3 as [-> _]; right; now left].
  cbn [bind]. destruct (np_any _); discriminate.
Qed.

(** What the checks can raise, whatever the data. *)
Lemma check_Raise_kinds x :
  check spec_file threshold output = Raise x ->
  x = IndexError \/ x = ValueError \/
  exists t e, In t (time spec_file) /\ sample output t = inl e /\
              x = CollaboratorError e.
Proof.
  unfold check.
  destruct (np_array2_cases (E := E) (data spec_file)) as [-> | ->];
    [|intros [= <-]; right; now left].
  cbn [bind]. unfold np_getitem at 1.
  destruct (nth_error (data spec_file) 0) as [e0|]; [|intros [= <-]; now left].
  cbn [bind]. unfold np_getitem at 1.
  destruct (nth_error (time spec_file) 0) as [t0|] eqn:Ht0;
    [|intros [= <-]; now left].
  cbn [bind].
  destruct (sample output t0) as [e|s0] eqn:Hs0.
  { intros [= <-]. right; right. exists t0, e.
    repeat split; [eapply nth_error_In; exact Ht0 | exact Hs0]. }
  cbn [call bind]. intros Hloop.
  pose proof (verify_loop_inv
                (verify_step threshold output (time spec_file)
                   (data spec_file) e0 s0)
                1 (length (time spec_file) - 1)) as Hinv.
  rewrite Hloop in Hinv. destruct Hinv as (i & _ & _ & Hstep).
  apply verify_step_Raise in Hstep
    as [-> | [-> | (t & e & Ht & Hs & ->)]]; auto.
  right; right. exists t, e.
  repeat split; [eapply nth_error_In; exact Ht | exact Hs].
Qed.

(** Without a calibration point the checks raise [IndexError]. *)
Remark check_empty_sequence :
  time spec_file = [] -> data spec_file = [] ->
  check spec_file threshold output = Raise IndexError.
Proof. unfold check. now intros -> ->. Qed.

Hypothesis WF : well_formed spec_file output.

(** On well-formed data an iteration behaves as its sample decides. *)
Lemma step_cases t0 s0 e0 i :
  nth_error (time spec_file) 0 = Some t0 -> sample output t0 = inr s0 ->
  nth_error (data spec_file) 0 = Some e0 ->
  i < length (time spec_file) ->
  let step := verify_step threshold output (time spec_file) (data spec_file) e0 s0 in
  (exists t e, nth_error (time spec_file) i = Some t /\ sample output t = inl e /\
               step i = Raise (CollaboratorError e)) \/
  (exists t, nth_error (time spec_file) i = Some t /\
             sampled spec_file output i /\
             step i = Return (match exceeding spec_file output threshold i with
                              | [] => None
                              | _ :: _ =>
                                  Some (failure t (exceeding spec_file output threshold i))
                              end)).
Proof.
  intros Ht0 Hs0 He0 Hi step.
  destruct (nth_error (time spec_file) i) as [t|] eqn:Ht;
    [|apply nth_error_None in Ht; lia].
  destruct (sample output t) as [e|s] eqn:Hs.
  - left. exists t, e. split; [reflexivity|]. split; [exact Hs|].
    eapply step_unsampled; eassumption.
  - right. exists t. split; [reflexivity|]. split.
    + unfold sampled, sample_at. now rewrite Ht, Hs.
    + apply (step_sampled threshold WF Ht0 Hs0 He0 _ Ht Hs).
Qed.

(** On well-formed data, a failure reports the signals off at its index. *)
Lemma check_Return_wf r :
  check spec_file threshold output = Return r ->
  r = success \/
  exists i t,
    1 <= i /\ nth_error (time spec_file) i = Some t /\
    exceeding spec_file output threshold i <> [] /\
    r = failure t (exceeding spec_file output threshold i).
Proof.
  intros Hret.
  destruct (nth_error (time spec_file) 0) as [t0|] eqn:Ht0.
  2:{ apply nth_error_None in Ht0. destruct WF as [Hc _ _ _]. lia. }
  destruct (sample output t0) as [e|s0] eqn:Hs0.
  { rewrite (check_calibration_raises threshold WF Ht0 Hs0) in Hret. discriminate. }
  assert (Hcal : sample_at spec_file output 0 = Some s0)
    by (apply sample_at_Some; eauto).
  destruct (check_calibrated threshold WF Hcal)
    as (t0' & e0 & Ht0' & _ & He0 & _ & _ & Hcheck).
  rewrite Hcheck in Hret.
  pose proof (verify_loop_inv
                (verify_step threshold output (time spec_file) (data spec_file) e0 s0)
                1 (length (time spec_file) - 1)) as Hinv.
  rewrite Hret in Hinv. destruct Hinv as [[-> _] | (i & Hi & _ & Hstep)].
  - now left.
  - right.
    destruct (@step_cases t0 s0 e0 i Ht0 Hs0 He0 ltac:(lia))
      as [(t & e & _ & _ & Hr) | (t & Ht & _ & Hr)];
      rewrite Hr in Hstep; [discriminate|].
    exists i, t.
    destruct (exceeding spec_file output threshold i) eqn:Hex; [discriminate|].
    injection Hstep as <-. repeat split; [lia | assumption | discriminate].
Qed.

(** On well-formed data, the checks raise only what a sampling call, the
    first one to fail, raised. *)
Lemma check_Raise_wf x :
  check spec_file threshold output = Raise x <->
  exists e i t,
    x = CollaboratorError e /\
    nth_error (time spec_file) i = Some t /\ sample output t = inl e /\
    (forall k, k < i -> sampled spec_file output k) /\
    (forall k, 1 <= k < i -> exceeding spec_file output threshold k = []).
Proof.
  destruct (nth_error (time spec_file) 0) as [t0|] eqn:Ht0.
  2:{ apply nth_error_None in Ht0. destruct WF as [Hc _ _ _]. lia. }
  destruct (sample output t0) as [e0|s0] eqn:Hs0.
  { rewrite (check_calibration_raises threshold WF Ht0 Hs0). split.
    - intros [= <-]. exists e0, 0, t0. repeat split; try assumption; intros; lia.
    - intros (e & i & t & -> & Ht & Hs & Hsampled & _).
      destruct i as [|i].
      + replace e with e0 by congruence. reflexivity.
      + exfalso. apply (Hsampled 0); [lia|].
        unfold sample_at. now rewrite Ht0, Hs0. }
  assert (Hcal : sample_at spec_file output 0 = Some s0)
    by (apply sample_at_Some; eauto).
  destruct (check_calibrated threshold WF Hcal)
    as (t0' & e0 & Ht0' & _ & He0 & _ & _ & ->).
  set (step := verify_step threshold output (time spec_file) (data spec_file) e0 s0).
  assert (Hpassed : forall i, 1 <= i <= length (time spec_file) ->
            (forall k, 1 <= k < i -> step k = Return None) ->
            (forall k, k < i -> sampled spec_file output k) /\
            (forall k, 1 <= k < i -> exceeding spec_file output threshold k = [])).
  { intros i Hi Hpre. split; intros k Hk.
    - destruct (Nat.eq_dec k 0) as [-> | Hk0]; [unfold sampled; congruence|].
      destruct (@step_cases t0 s0 e0 k Ht0 Hs0 He0 ltac:(lia))
        as [(t & e & _ & _ & Hr) | (t & _ & Hsm & _)]; [|exact Hsm].
      fold step in Hr. rewrite Hpre in Hr by lia. discriminate.
    - destruct (@step_cases t0 s0 e0 k Ht0 Hs0 He0 ltac:(lia))
        as [(t & e & _ & _ & Hr) | (t & _ & _ & Hr)];
        fold step in Hr; rewrite Hpre in Hr by lia; [discriminate|].
      destruct (exceeding spec_file output threshold k); [reflexivity | discriminate]. }
  split.
  - intros Hraise.
    pose proof (verify_loop_inv step 1 (length (time spec_file) - 1)) as Hinv.
    rewrite Hraise in Hinv. destruct Hinv as (i & Hi & Hpre & Hstep).
    destruct (@step_cases t0 s0 e0 i Ht0 Hs0 He0 ltac:(lia))
      as [(t & e & Ht & Hs & Hr) | (t & _ & _ & Hr)];
      fold step in Hr; rewrite Hr in Hstep; [|discriminate].
    injection Hstep as <-. exists e, i, t.
    destruct (Hpassed i ltac:(lia) Hpre) as [Hsm Hex].
    repeat split; assumption.
  - intros (e & i & t & -> & Ht & Hs & Hsampled & Hex).
    assert (HiN : i < length (time spec_file)) by (apply nth_error_Some; congruence).
    destruct (Nat.eq_dec i 0) as [-> | Hi0]; [congruence|].
    rewrite (@verify_loop_first _ _ step 1 (length (time spec_file) - 1) i);
      [ | lia | ].
    + unfold step. now rewrite (step_unsampled _ _ _ _ _ _ Ht Hs).
    + intros k Hk.
      destruct (@step_cases t0 s0 e0 k Ht0 Hs0 He0 ltac:(lia))
        as [(t' & e' & Ht' & Hs' & _) | (t' & _ & _ & Hr)].
      * exfalso. apply (Hsampled k); [lia|].
        unfold sample_at. now rewrite Ht', Hs'.
      * fold step in Hr. rewrite Hr. now rewrite Hex by lia.
Qed.
End CheckInversion.

Section RaiseFacts.
Context {F : Type} {arith : Float64 F} {E : Type} {collab : Collaborators F E}.

(** What [verify] can raise, whatever the data: numpy's [IndexError] and
    [ValueError], or what a collaborator raised, as it was raised. *)
Lemma verify_Raise_kinds (self : Verifier F) params x :
  fst (verify self params) = Raise x ->
  x = IndexError \/ x = ValueError \/ exists e, x = CollaboratorError e.
Proof.
  rewrite verify_check.
  pose proof (_simulate_calls self
                (match params with None => [] | Some p => p end)) as Hcalls.
  fold (simulation_of self params) in Hcalls.
  destruct (simulation_of self params) as [output|x0]; cbn [bind].
  - intros Hcheck. apply check_Raise_kinds in Hcheck
      as [-> | [-> | (t & e & _ & _ & ->)]]; eauto.
  - intros [= <-]. right; right.
    destruct (change_parameters _ _) as [[e|u] sim']; [now exists e; congruence|].
    destruct (fst (simulate sim' _)) as [e|o]; [|discriminate].
    exists e. simpl in Hcalls. congruence.
Qed.
End RaiseFacts.

Section ExtensionalityFacts.
Context {F : Type} {arith : Float64 F} {E : Type} {collab : Collaborators F E}.

(** An iteration reads the output through [sample] at its own time point. *)
Lemma verify_step_ext threshold (o1 o2 : CircuitSimulatorOutput)
    time_steps phase_flips (e0 s0 : list F) i :
  (forall t, In t time_steps -> sample o1 t = sample o2 t) ->
  verify_step threshold o1 time_steps phase_flips e0 s0 i =
  verify_step threshold o2 time_steps phase_flips e0 s0 i.
Proof.
  intros Hsame. unfold verify_step, np_getitem.
  destruct (nth_error time_steps i) as [t|] eqn:Ht; [|reflexivity].
  cbn [bind]. now rewrite (Hsame t) by (eapply nth_error_In; exact Ht).
Qed.

(** The checks read the spec file through [time()] and [data()], and the
    output through [sample] at the expectation times. *)
Lemma check_ext (spec_file spec_file' : SpecFile F) threshold
    (o1 o2 : CircuitSimulatorOutput) :
  time spec_file = time spec_file' -> data spec_file = data spec_file' ->
  (forall t, In t (time spec_file) -> sample o1 t = sample o2 t) ->
  check spec_file threshold o1 = check spec_file' threshold o2.
Proof.
  intros Htime Hdata Hsame. unfold check. rewrite <- Htime, <- Hdata.
  destruct (np_array2 (data spec_file)) as [phase_flips|]; [|reflexivity].
  cbn [bind]. destruct (np_getitem phase_flips 0) as [e0|]; [|reflexivity].
  cbn [bind]. unfold np_getitem.
  destruct (nth_error (time spec_file) 0) as [t0|] eqn:Ht0; [|reflexivity].
  cbn [bind]. rewrite (Hsame t0) by (eapply nth_error_In; exact Ht0).
  destruct (call (sample o2 t0)) as [s0|]; [|reflexivity]. cbn [bind].
  apply verify_loop_ext. intros k _. now apply verify_step_ext.
Qed.
End ExtensionalityFacts.

Section RelationalFacts.
Context {F : Type} {arith : Float64 F} {E : Type}.

(** An elementwise operation maps related operands to related results:
    relatedness entry by entry fixes the shapes, hence the broadcasting. *)
Lemma np_binop_rel (R S T : F -> F -> Prop) (f : F -> F -> F) a a' b b' :
  Forall2 R a a' -> Forall2 S b b' ->
  (forall x x' y y', R x x' -> S y y' -> T (f x y) (f x' y')) ->
  result_rel (Forall2 T) (np_binop (E := E) f a b) (np_binop (E := E) f a' b').
Proof.
  intros Ha Hb Hf. unfold np_binop.
  rewrite <- (Forall2_length Ha), <- (Forall2_length Hb).
  destruct (length a =? length b) eqn:Hl.
  - simpl. unfold zip_with. clear Hl. revert b b' Hb.
    induction Ha as [|x x' a a' Hx Ha IH]; intros b b' Hb; [constructor|].
    destruct Hb as [|y y' b b' Hy Hb]; simpl; [constructor|].
    constructor; [now apply Hf | now apply IH].
  - destruct Ha as [|x x' a a' Hx Ha]; [|destruct Ha as [|x2 x2' a a' Hx2 Ha]].
    + destruct Hb as [|y y' b b' Hy Hb]; [reflexivity|].
      destruct Hb; simpl; [constructor; constructor | reflexivity].
    + simpl. clear Hl. induction Hb; simpl; constructor; auto.
    + destruct Hb as [|y y' b b' Hy Hb]; [reflexivity|].
      destruct Hb as [|y2 y2' b b' Hy2 Hb]; [|reflexivity].
      simpl. constructor; [now apply Hf|]. constructor; [now apply Hf|].
      clear Hl Hx Hx2. induction Ha; simpl; constructor; auto.
Qed.

Lemma Forall2_map_both {A B} (R : B -> B -> Prop) (g g' : A -> B) l l' (P : A -> A -> Prop) :
  Forall2 P l l' -> (forall x x', P x x' -> R (g x) (g' x')) ->
  Forall2 R (map g l) (map g' l').
Proof.
  intros Hl Hg. induction Hl; simpl; constructor; auto.
Qed.

Lemma Forall2_map_eq {A B} (g : A -> B) l l' (P : A -> A -> Prop) :
  Forall2 P l l' -> (forall x x', P x x' -> g x = g x') ->
  map g l = map g l'.
Proof.
  intros Hl Hg. induction Hl; simpl; [reflexivity|]. f_equal; auto.
Qed.

(** [np.array] on rows whose lengths are those of [rows]. *)
Lemma np_array2_map (g : list F -> list F) (rows : list (list F)) :
  (forall r, length (g r) = length r) ->
  np_array2 (E := E) (map g rows) =
    match np_array2 (E := E) rows with
    | Return _ => Return (map g rows)
    | Raise x => Raise x
    end.
Proof.
  intros Hg. destruct rows as [|r rs]; [reflexivity|]. simpl.
  replace (forallb (fun r' => length r' =? length (g r)) (map g rs))
    with (forallb (fun r' => length r' =? length r) rs).
  - destruct (forallb _ rs); reflexivity.
  - induction rs as [|r' rs IH]; [reflexivity|].
    simpl. now rewrite IH, !Hg.
Qed.
End RelationalFacts.

(** ** Offsets in exact arithmetic *)

Section OffsetFacts.
Context {E : Type} {collab : Collaborators Q E}.

Variable c : Q.

Lemma shift_length (v : list Q) : length (shift c v) = length v.
Proof. apply length_map. Qed.

Lemma shift_related (v : list Q) :
  Forall2 (fun x' x => Qeq x' (x + c)) (shift c v) v.
Proof.
  induction v as [|x v IH]; simpl; constructor; [reflexivity | exact IH].
Qed.

(** The offset cancels in a difference of two shifted vectors. *)
Lemma np_sub_shift (a b : list Q) :
  result_rel (Forall2 Qeq)
    (np_sub (E := E) (shift c a) (shift c b)) (np_sub (E := E) a b).
Proof.
  unfold np_sub.
  apply np_binop_rel with (R := fun x' x => Qeq x' (x + c))
                          (S := fun x' x => Qeq x' (x + c));
    try apply shift_related.
  intros x x' y y' Hx Hy. simpl. rewrite Hx, Hy. ring.
Qed.

Lemma np_sub_Qeq (a a' b b' : list Q) :
  Forall2 Qeq a a' -> Forall2 Qeq b b' ->
  result_rel (Forall2 Qeq) (np_sub (E := E) a b) (np_sub (E := E) a' b').
Proof.
  intros Ha Hb. unfold np_sub.
  apply np_binop_rel with (R := Qeq) (S := Qeq); try assumption.
  intros x x' y y' Hx Hy. simpl. now rewrite Hx, Hy.
Qed.

Lemma np_div_scalar_Qeq (a a' : list Q) s :
  Forall2 Qeq a a' -> Forall2 Qeq (np_div_scalar a s) (np_div_scalar a' s).
Proof.
  intros Ha. unfold np_div_scalar. apply Forall2_map_both with (P := Qeq);
    [assumption|]. intros x x' Hx. simpl. now rewrite Hx.
Qed.

(** Equal rationals compare alike with the threshold. *)
Lemma mask_Qeq (a a' : list Q) threshold :
  Forall2 Qeq a a' ->
  np_gt_scalar (np_abs a) threshold = np_gt_scalar (np_abs a') threshold.
Proof.
  intros Ha. unfold np_gt_scalar, np_abs. rewrite !map_map.
  apply Forall2_map_eq with (P := Qeq); [assumption|].
  intros x x' Hx. simpl. now rewrite Hx.
Qed.

(** One iteration on shifted data decides as on the data. *)
Lemma verify_step_shift threshold (o o' : CircuitSimulatorOutput)
    time_steps phase_flips (e0 s0 : list Q) i :
  (forall t, In t time_steps ->
     sample o' t = match sample o t with
                   | inr v => inr (shift c v)
                   | inl e => inl e
                   end) ->
  verify_step threshold o' time_steps (map (shift c) phase_flips)
    (shift c e0) (shift c s0) i =
  verify_step threshold o time_steps phase_flips e0 s0 i.
Proof.
  intros Hshift. unfold verify_step, np_getitem.
  destruct (nth_error time_steps i) as [t|] eqn:Ht; [|reflexivity].
  cbn [bind]. rewrite (Hshift t) by (eapply nth_error_In; exact Ht).
  destruct (sample o t) as [e|s]; [reflexivity|]. cbn [call bind].
  pose proof (np_sub_shift s s0) as Hd.
  destruct (np_sub (shift c s) (shift c s0)) as [d'|x'],
           (np_sub s s0) as [d|x]; simpl in Hd; try contradiction;
    [|now subst].
  cbn [bind]. rewrite nth_error_map.
  destruct (nth_error phase_flips i) as [e|]; [|reflexivity].
  cbn [option_map bind].
  pose proof (np_sub_shift e e0) as Hp.
  destruct (np_sub (shift c e) (shift c e0)) as [p'|x'],
           (np_sub e e0) as [p|x]; simpl in Hp; try contradiction;
    [|now subst].
  cbn [bind].
  pose proof (np_sub_Qeq (np_div_scalar_Qeq (fmul ftwo np_pi) Hd) Hp) as Hdelta.
  destruct (np_sub (np_div_scalar d' _) p') as [delta'|x'],
           (np_sub (np_div_scalar d _) p) as [delta|x];
    simpl in Hdelta; try contradiction; [|now subst].
  cbn [bind]. now rewrite (mask_Qeq threshold Hdelta).
Qed.

(** The checks on a shifted spec file and a shifted output decide as on
    the originals. *)
Lemma check_shift (spec_file : SpecFile Q) threshold
    (o o' : CircuitSimulatorOutput) :
  shifted_output c spec_file o o' ->
  check (shift_spec c spec_file) threshold o' = check spec_file threshold o.
Proof.
  intros Hshift. unfold check, shift_spec. cbn [time data].
  rewrite np_array2_map by apply shift_length.
  destruct (np_array2 (data spec_file)) as [phase_flips|x] eqn:Harr;
    [|reflexivity].
  assert (phase_flips = data spec_file) as ->
    by (destruct (np_array2_cases (E := E) (data spec_file)); congruence).
  cbn [bind]. unfold np_getitem. rewrite nth_error_map.
  destruct (nth_error (data spec_file) 0) as [e0|]; [|reflexivity].
  cbn [option_map bind].
  destruct (nth_error (time spec_file) 0) as [t0|] eqn:Ht0; [|reflexivity].
  cbn [bind]. rewrite (Hshift t0) by (eapply nth_error_In; exact Ht0).
  destruct (sample o t0) as [e|s0]; [reflexivity|]. cbn [call bind].
  apply verify_loop_ext. intros k _. now apply verify_step_shift.
Qed.
End OffsetFacts.

(** ** The comparison in the two arithmetics *)

Lemma SFcompare_swap (x y : spec_float) :
  SFcompare y x = option_map CompOpp (SFcompare x y).
Proof.
  destruct x as [s1|s1| |s1 m1 e1], y as [s2|s2| |s2 m2 e2]; simpl;
    try reflexivity;
    try (destruct s1; reflexivity); try (destruct s2; reflexivity);
    try (destruct s1, s2; reflexivity).
  destruct s1, s2; simpl; try reflexivity; f_equal;
    rewrite (Z.compare_antisym e1 e2);
    destruct (e1 ?= e2)%Z; simpl; try reflexivity.
  - f_equal. exact (eq_sym (Pos.compare_cont_antisym m1 m2 Eq)).
  - exact (eq_sym (Pos.compare_cont_antisym m1 m2 Eq)).
Qed.

(** In binary64, [a <= b] excludes [a > b] (NaN satisfies neither). *)
#[export] Instance binary64_order : Float64Order float.
Proof.
  constructor. intros a b. simpl.
  rewrite leb_spec, ltb_spec. unfold SFleb, SFltb.
  rewrite (SFcompare_swap (Prim2SF a) (Prim2SF b)).
  destruct (SFcompare (Prim2SF a) (Prim2SF b)) as [[]|]; simpl; congruence.
Qed.

#[export] Instance rational_order : Float64Order Q.
Proof. constructor. intros a b. simpl. now intros ->. Qed.

(** The two instances hold the same [np.pi]. *)
Remark np_pi_agrees :
  Prim2SF (np_pi (F := float)) = S754_finite false 7074237752028440 (-51) /\
  Qeq (7074237752028440 # 2 ^ 51) (np_pi (F := Q)).
Proof. split; vm_compute; reflexivity. Qed.

(* ===================================================================== *)
(** * Part IV. The specified properties                                   *)
(* ===================================================================== *)

(** ** Failure at the first divergence *)

(** C1. When some signal is off by more than the threshold at an index
    [i >= 1] and none is at any earlier checked index, [verify] returns
    [succeed = false], [failure_time = time()[i]] and, as [failure_point],
    exactly the signals off at index [i], in increasing order; what happens
    at later indices plays no part. *)
Theorem verify_reports_first_divergence
    {F : Type} {arith : Float64 F} {E : Type} {collab : Collaborators F E}
    (self : Verifier F) (params : option (list (string * F)))
    (output : CircuitSimulatorOutput) (i j_off : nat) (t_i : F) :
  let spec_file := spec_file_ self in
  let off := exceeds spec_file output (threshold_ self) in
  simulation_of self params = Return output ->
  well_formed spec_file output ->
  1 <= i ->
  nth_error (time spec_file) i = Some t_i ->
  (forall k, k <= i -> sampled spec_file output k) ->
  j_off < length (names spec_file) ->
  off i j_off = true ->
  (forall k j, 1 <= k < i -> j < length (names spec_file) -> off k j = false) ->
  exists signals,
    fst (verify self params) =
      Return {| succeed := false;
                failure_time := Some t_i;
                failure_point := Some signals |} /\
    (forall j, In j signals <-> j < length (names spec_file) /\ off i j = true) /\
    StronglySorted lt signals.
Proof.
  intros spec_file off; subst off spec_file.
  intros Hsim WF Hi Hti Hsampled Hj Hoff Hfirst.
  exists (exceeding (spec_file_ self) output (threshold_ self) i). split; [|split].
  - apply verify_stops_at_first; try assumption.
    + intros Hnil. rewrite exceeding_nil in Hnil.
      specialize (Hnil j_off Hj). congruence.
    + intros k Hk. apply exceeding_nil. intros j Hjn. now apply Hfirst.
  - apply exceeding_In.
  - apply exceeding_sorted.
Qed.

(** The failure scenario of the spec: the reading 2.3 at time 2 is off by
    0.3 > 0.1, so the verification fails at time 2 on signal 0. *)
Lemma verify_reports_first_divergence_witness :
  exists signals,
    fst (verify (Scenario.verifier Scenario.far_reading) None) =
      Return {| succeed := false;
                failure_time := Some 2%float;
                failure_point := Some signals |} /\
    (forall j, In j signals <->
       j < 1 /\
       exceeds (collab := Scenario.bench Scenario.far_reading)
         Scenario.golden (Scenario.trace Scenario.far_reading)
         Scenario.tenth 2 j = true) /\
    StronglySorted lt signals.
Proof.
  apply (@verify_reports_first_divergence _ _ _
           (Scenario.bench Scenario.far_reading)
           (Scenario.verifier Scenario.far_reading) None
           (Scenario.trace Scenario.far_reading) 2 0 2%float).
  - reflexivity.
  - constructor.
    + simpl. lia.
    + reflexivity.
    + intros row [<-|[<-|[<-|[]]]]; reflexivity.
    + intros t v [<-|[<-|[<-|[]]]]; vm_compute; intros [= <-]; reflexivity.
  - lia.
  - reflexivity.
  - intros [|[|[|k]]] Hk; try lia; vm_compute; discriminate.
  - simpl. lia.
  - vm_compute. reflexivity.
  - intros k j Hk Hj. assert (k = 1) by lia. assert (j = 0) by (simpl in Hj; lia).
    subst. vm_compute. reflexivity.
Defined.

(** ** Success within the threshold *)

(** C2. When, at every index [i >= 1], every signal's difference between
    the observed and the expected phase-flip delta is at most the threshold
    (equality included), [verify] returns [succeed = true]. *)
Theorem verify_succeeds_within_threshold
    {F : Type} {arith : Float64 F} {order : Float64Order F}
    {E : Type} {collab : Collaborators F E}
    (self : Verifier F) (params : option (list (string * F)))
    (output : CircuitSimulatorOutput) :
  let spec_file := spec_file_ self in
  simulation_of self params = Return output ->
  well_formed spec_file output ->
  (forall k, k < length (time spec_file) -> sampled spec_file output k) ->
  (forall i j, 1 <= i < length (time spec_file) ->
               j < length (names spec_file) ->
               within spec_file output (threshold_ self) i j = true) ->
  fst (verify self params) =
    Return {| succeed := true; failure_time := None; failure_point := None |}.
Proof.
  intros spec_file; subst spec_file. intros Hsim WF Hsampled Hwithin.
  apply verify_passes_all with (output := output); try assumption.
  intros k Hk. apply exceeding_nil. intros j Hj.
  specialize (Hwithin k j Hk Hj). unfold within, exceeds in *.
  destruct (signal_difference (spec_file_ self) output k j) as [d|];
    [now apply fle_not_fgt | reflexivity].
Qed.

(** In exact arithmetic, a reading off by the threshold exactly passes. *)
Lemma verify_succeeds_within_threshold_witness :
  option_map (fun d => Qeq_bool d (threshold_ Boundary.verifier))
    (signal_difference (collab := Boundary.bench)
       Boundary.golden Boundary.trace 1 0) = Some true /\
  fst (verify Boundary.verifier None) =
    Return {| succeed := true; failure_time := None; failure_point := None |}.
Proof.
  split; [reflexivity|].
  apply (@verify_succeeds_within_threshold _ _ _ _ Boundary.bench
           Boundary.verifier None Boundary.trace).
  - reflexivity.
  - constructor.
    + simpl. lia.
    + reflexivity.
    + intros row [<-|[<-|[]]]; reflexivity.
    + intros t v [<-|[<-|[]]]; vm_compute; intros [= <-]; reflexivity.
  - intros [|[|k]] Hk; [| |simpl in Hk; lia]; vm_compute; discriminate.
  - intros i j Hi Hj. assert (i = 1) by (simpl in Hi; lia).
    assert (j = 0) by (simpl in Hj; lia). subst. vm_compute. reflexivity.
Defined.

(** ** The compared quantity *)

(** C3. At a checked index [i >= 1], the vector compared with the threshold
    holds, for each tracked signal, the absolute value of
    [(sample_i - calibration_sample) / (2 pi) - (expected_i - calibration_expectation)];
    the calibration vectors the loop of this call works with are the trace
    sampled at time index 0 and the expected vector at index 0; and the
    iteration returns a failure exactly when some entry of that vector is
    above the threshold. *)
Theorem verify_compares_phase_flip_deltas
    {F : Type} {arith : Float64 F} {E : Type} {collab : Collaborators F E}
    (spec_file : SpecFile F) (output : CircuitSimulatorOutput) (threshold : F)
    (t0 t_i : F) (calibration_samples calibration_phase_flips : list F)
    (samples expected : list F) (i : nat) :
  well_formed spec_file output ->
  nth_error (time spec_file) 0 = Some t0 ->
  sample output t0 = inr calibration_samples ->
  nth_error (data spec_file) 0 = Some calibration_phase_flips ->
  1 <= i ->
  nth_error (time spec_file) i = Some t_i ->
  sample output t_i = inr samples ->
  nth_error (data spec_file) i = Some expected ->
  exists difference : list F,
    length difference = length (names spec_file) /\
    (forall j, j < length (names spec_file) ->
       exists s_i s_0 e_i e_0,
         nth_error samples j = Some s_i /\
         nth_error calibration_samples j = Some s_0 /\
         nth_error expected j = Some e_i /\
         nth_error calibration_phase_flips j = Some e_0 /\
         nth_error difference j =
           Some (fabs (fsub (fdiv (fsub s_i s_0) (fmul ftwo np_pi))
                            (fsub e_i e_0)))) /\
    check spec_file threshold output =
      verify_loop
        (verify_step threshold output (time spec_file) (data spec_file)
           calibration_phase_flips calibration_samples)
        (seq 1 (length (time spec_file) - 1)) /\
    verify_step threshold output (time spec_file) (data spec_file)
      calibration_phase_flips calibration_samples i =
      Return (if np_any (np_gt_scalar difference threshold)
              then Some {| succeed := false;
                           failure_time := Some t_i;
                           failure_point :=
                             Some (np_where (np_gt_scalar difference threshold)) |}
              else None).
Proof.
  intros WF Ht0 Hs0 He0 Hi Ht Hs He.
  set (n := length (names spec_file)).
  assert (Ls : length samples = n)
    by (eapply (wf_samples WF); [eapply nth_error_In; exact Ht | exact Hs]).
  assert (Ls0 : length calibration_samples = n)
    by (eapply (wf_samples WF); [eapply nth_error_In; exact Ht0 | exact Hs0]).
  assert (Le : length expected = n)
    by (eapply (wf_rows WF), nth_error_In; exact He).
  assert (Le0 : length calibration_phase_flips = n)
    by (eapply (wf_rows WF), nth_error_In; exact He0).
  exists (np_abs (zip_with fsub
            (np_div_scalar (zip_with fsub samples calibration_samples)
               (fmul ftwo np_pi))
            (zip_with fsub expected calibration_phase_flips))).
  split; [|split; [|split]].
  - now apply difference_length.
  - intros j Hj. rewrite difference_entry.
    destruct (nth_error samples j) as [s_i|] eqn:E1;
      [|apply nth_error_None in E1; lia].
    destruct (nth_error calibration_samples j) as [s_0|] eqn:E2;
      [|apply nth_error_None in E2; lia].
    destruct (nth_error expected j) as [e_i|] eqn:E3;
      [|apply nth_error_None in E3; lia].
    destruct (nth_error calibration_phase_flips j) as [e_0|] eqn:E4;
      [|apply nth_error_None in E4; lia].
    exists s_i, s_0, e_i, e_0. repeat split; reflexivity.
  - assert (Hcal : sample_at spec_file output 0 = Some calibration_samples)
      by (apply sample_at_Some; eauto).
    destruct (check_calibrated threshold WF Hcal)
      as (t0' & e0' & Ht0' & _ & He0' & _ & _ & ->).
    congruence.
  - now apply verify_step_vectors with (s := samples) (e := expected) (m := n).
Qed.

(** The passing scenario of the spec at time 2: the reading 2.02 against 2
    expected flips gives a difference of about 0.02, and no failure. *)
Lemma verify_compares_phase_flip_deltas_witness :
  exists difference : list float,
    nth_error difference 0 =
      Some (abs ((2 * np_pi * Scenario.close_reading - 0) / (2 * np_pi) - (2 - 0)))%float /\
    verify_step (collab := Scenario.bench Scenario.close_reading)
      Scenario.tenth (Scenario.trace Scenario.close_reading)
      (time Scenario.golden) (data Scenario.golden) [0%float] [0%float] 2 =
      Return (if np_any (np_gt_scalar difference Scenario.tenth)
              then Some {| succeed := false;
                           failure_time := Some 2%float;
                           failure_point :=
                             Some (np_where (np_gt_scalar difference Scenario.tenth)) |}
              else None).
Proof.
  destruct (@verify_compares_phase_flip_deltas _ _ _
              (Scenario.bench Scenario.close_reading)
              Scenario.golden (Scenario.trace Scenario.close_reading)
              Scenario.tenth 0%float 2%float [0%float] [0%float]
              [(2 * np_pi * Scenario.close_reading)%float] [2%float] 2)
    as (difference & _ & Hentry & _ & Hstep).
  - constructor.
    + simpl. lia.
    + reflexivity.
    + intros row [<-|[<-|[<-|[]]]]; reflexivity.
    + intros t v [<-|[<-|[<-|[]]]]; vm_compute; intros [= <-]; reflexivity.
  - reflexivity.
  - reflexivity.
  - reflexivity.
  - lia.
  - reflexivity.
  - reflexivity.
  - reflexivity.
  - exists difference. split; [|exact Hstep].
    destruct (Hentry 0) as (s_i & s_0 & e_i & e_0 & [= <-] & [= <-] & [= <-] & [= <-] & ->);
      [simpl; lia | reflexivity].
Defined.

(** ** The calibration point alone *)

(** C4. When the expectation sequence holds the calibration point only,
    [verify] returns [succeed = true], whatever the calibration sample and
    the threshold are. *)
Theorem verify_calibration_only
    {F : Type} {arith : Float64 F} {E : Type} {collab : Collaborators F E}
    (self : Verifier F) (params : option (list (string * F)))
    (output : CircuitSimulatorOutput) :
  simulation_of self params = Return output ->
  length (time (spec_file_ self)) = 1 ->
  length (data (spec_file_ self)) = 1 ->
  sampled (spec_file_ self) output 0 ->
  fst (verify self params) =
    Return {| succeed := true; failure_time := None; failure_point := None |}.
Proof.
  intros Hsim Ltime Ldata Hcal. rewrite verify_check, Hsim. cbn [bind].
  unfold sampled, sample_at in Hcal. unfold check.
  destruct (spec_file_ self) as [nm [|t0 [|? ?]] [|e0 [|? ?]]]; try discriminate.
  simpl in *. destruct (sample output t0); [congruence | reflexivity].
Qed.

(** A one-point expectation sequence, a calibration sample of the wrong
    shape and a far-off trace: still a success. *)
Lemma verify_calibration_only_witness :
  fst (verify Scenario.lone None) =
    Return {| succeed := true; failure_time := None; failure_point := None |}.
Proof.
  apply (@verify_calibration_only _ _ _ (Scenario.bench Scenario.far_reading))
    with (output := Scenario.trace Scenario.far_reading).
  - reflexivity.
  - reflexivity.
  - reflexivity.
  - vm_compute. discriminate.
Defined.

(** ** Boolean conversion *)

(** C8. Converting a [VerifierResult] to a boolean yields its [succeed]
    flag, whatever [failure_time] and [failure_point] hold. *)
Theorem bool_is_succeed {F : Type} (result : VerifierResult F) :
  __bool__ result = succeed result /\
  (__bool__ result = true <-> succeed result = true) /\
  forall (t : option F) (js : option (list nat)),
    __bool__ {| succeed := succeed result;
                failure_time := t;
                failure_point := js |} = __bool__ result.
Proof.
  split; [reflexivity|]. split; [reflexivity|]. intros t js. reflexivity.
Qed.

(** ** The shape of a result *)

(** C7. A result returned by [verify] with [succeed = true] has no
    [failure_time] and no [failure_point]; one with [succeed = false] has
    as [failure_time] a time point of the expectation sequence (past the
    calibration point) and as [failure_point] a non-empty, strictly
    increasing list of indices, which index tracked signals when the data
    is well formed. *)
Theorem verify_result_invariant
    {F : Type} {arith : Float64 F} {E : Type} {collab : Collaborators F E}
    (self : Verifier F) (params : option (list (string * F)))
    (result : VerifierResult F) :
  fst (verify self params) = Return result ->
  (succeed result = true ->
     failure_time result = None /\ failure_point result = None) /\
  (succeed result = false ->
     exists i t signals,
       failure_time result = Some t /\
       1 <= i /\ nth_error (time (spec_file_ self)) i = Some t /\
       failure_point result = Some signals /\ signals <> [] /\
       StronglySorted lt signals /\
       ((forall output, simulation_of self params = Return output ->
           well_formed (spec_file_ self) output) ->
        Forall (fun j => j < length (names (spec_file_ self))) signals)).
Proof.
  rewrite verify_check.
  destruct (simulation_of self params) as [output|x] eqn:Hsim; [|discriminate].
  cbn [bind]. intros Hcheck.
  destruct (check_Return _ _ _ Hcheck) as [-> | (i & t & mask & Hi & Ht & Hany & ->)].
  - split; [now split | discriminate].
  - split; [discriminate|]. intros _.
    exists i, t, (np_where mask). repeat split; try assumption.
    + now apply np_any_where.
    + apply np_where_from_sorted.
    + intros WF. specialize (WF output eq_refl).
      destruct (check_Return_wf (threshold_ self) WF Hcheck)
        as [Heq | (i' & t' & _ & _ & _ & Heq)]; [discriminate|].
      injection Heq as _ ->. apply Forall_forall. intros j Hj.
      now apply exceeding_In in Hj.
Qed.

(** The failure scenario of the spec returns a result of the second shape. *)
Lemma verify_result_invariant_witness :
  exists i t signals,
    t = 2%float /\ 1 <= i /\ nth_error (time Scenario.golden) i = Some t /\
    signals = [0] /\ signals <> [] /\ StronglySorted lt signals.
Proof.
  destruct (@verify_result_invariant _ _ _ (Scenario.bench Scenario.far_reading)
              (Scenario.verifier Scenario.far_reading) None
              {| succeed := false;
                 failure_time := Some 2%float;
                 failure_point := Some [0] |})
    as [_ Hfailure].
  - vm_compute. reflexivity.
  - destruct (Hfailure eq_refl)
      as (i & t & signals & [= <-] & Hi & Hin & [= <-] & Hne & Hsorted & _).
    exists i, 2%float, [0]. repeat split; assumption.
Defined.

(** ** Exceptions *)

(** C9, as amended. On data that meets the invariants of the data model
    (at least the calibration point, one expected vector per time point,
    every expected and sampled vector with one entry per tracked signal),
    [verify] raises exactly when a collaborator call it makes raises, and
    raises that very exception; an index with a signal above the threshold
    makes it return a result with [succeed = false], not raise.  Without
    those invariants [verify] also raises numpy's [IndexError] and
    [ValueError], no collaborator having raised. *)
Theorem verify_raises_iff_collaborator_raises
    {F : Type} {arith : Float64 F} {E : Type} {collab : Collaborators F E}
    (self : Verifier F) (params : option (list (string * F))) :
  (forall output, simulation_of self params = Return output ->
     well_formed (spec_file_ self) output) ->
  (forall x, fst (verify self params) = Raise x <->
     exists e, x = CollaboratorError e /\ raised_by_collaborator self params e) /\
  (forall output i t_i,
     simulation_of self params = Return output ->
     1 <= i -> nth_error (time (spec_file_ self)) i = Some t_i ->
     (forall k, k <= i -> sampled (spec_file_ self) output k) ->
     exceeding (spec_file_ self) output (threshold_ self) i <> [] ->
     (forall k, 1 <= k < i ->
        exceeding (spec_file_ self) output (threshold_ self) k = []) ->
     exists result,
       fst (verify self params) = Return result /\ succeed result = false).
Proof.
  intros WF. split.
  - intros x. rewrite verify_check. unfold raised_by_collaborator.
    pose proof (_simulate_calls self
                  (match params with None => [] | Some p => p end)) as Hcalls.
    fold (simulation_of self params) in Hcalls.
    destruct (simulation_of self params) as [output|x0] eqn:Hsim; cbn [bind].
    + rewrite (check_Raise_wf (threshold_ self) (WF output eq_refl)).
      split.
      * intros (e & i & t & -> & Ht & Hs & Hsm & Hex).
        exists e. split; [reflexivity|]. right. right.
        exists output, i, t. repeat split; assumption.
      * intros (e & -> & [Hcp | [(sim' & Hcp & Hs) | (o & i & t & [= <-] & H)]]).
        -- destruct (change_parameters _ _) as [[e'|u] sim']; simpl in Hcp;
             [discriminate | congruence].
        -- rewrite Hcp in Hcalls. rewrite Hs in Hcalls. discriminate.
        -- exists e, i, t. split; [reflexivity | exact H].
    + split.
      * intros [= <-].
        destruct (change_parameters _ _) as [[e|[]] sim'] eqn:Hcp.
        -- injection Hcalls as ->. exists e. split; [reflexivity|]. now left.
        -- destruct (fst (simulate sim' _)) as [e|o] eqn:Hs; [|discriminate].
           injection Hcalls as ->. exists e. split; [reflexivity|].
           right. left. exists sim'. split; [reflexivity | exact Hs].
      * intros (e & -> & [Hcp | [(sim' & Hcp & Hs) | (o & i & t & Ho & _)]]).
        -- destruct (change_parameters _ _) as [[e'|u] sim']; simpl in Hcp;
             congruence.
        -- rewrite Hcp, Hs in Hcalls. simpl in Hcalls. congruence.
        -- discriminate.
  - intros output i t_i Hsim Hi Ht Hsm Hex Hfirst.
    exists (failure t_i (exceeding (spec_file_ self) output (threshold_ self) i)).
    split; [|reflexivity].
    apply verify_stops_at_first; try assumption. now apply WF.
Qed.

(** A simulation that stopped before the last expectation time: sampling
    there raises, and [verify] raises the same exception. *)
Lemma verify_raises_iff_collaborator_raises_witness :
  fst (verify Scenario.short_verifier None) =
    Raise (CollaboratorError "time out of range"%string).
Proof.
  apply (@verify_raises_iff_collaborator_raises _ _ _ Scenario.short_bench
           Scenario.short_verifier None).
  - intros output [= <-]. constructor.
    + simpl. lia.
    + reflexivity.
    + intros row [<-|[<-|[<-|[]]]]; reflexivity.
    + intros t v [<-|[<-|[<-|[]]]]; vm_compute; intros [= <-]; reflexivity.
  - exists "time out of range"%string. split; [reflexivity|].
    right. right. exists Scenario.short_trace, 2, 2%float.
    split; [reflexivity|]. split; [reflexivity|]. split; [reflexivity|]. split.
    + intros [|[|k]] Hk; try lia; vm_compute; discriminate.
    + intros k Hk. assert (k = 1) by lia. subst. vm_compute. reflexivity.
Defined.

(** C9 as it was stated fails on a spec file without a time point: the
    simulation and every call made return, and [verify] raises numpy's
    [IndexError]; so [verify] raising is not equivalent to a collaborator
    raising. *)
Lemma verify_raises_without_collaborator :
  fst (verify Fixture.blank_verifier None) = Raise IndexError /\
  (forall e, ~ raised_by_collaborator Fixture.blank_verifier None e) /\
  ~ (forall x,
       fst (verify Fixture.blank_verifier None) = Raise x <->
       exists e, x = CollaboratorError e /\
                 raised_by_collaborator Fixture.blank_verifier None e).
Proof.
  assert (Hraise : fst (verify Fixture.blank_verifier None) = Raise IndexError)
    by reflexivity.
  split; [exact Hraise|]. split.
  - intros e [H | [(s' & _ & H) | (o & i & t & _ & Ht & _)]].
    + discriminate.
    + discriminate.
    + destruct i; discriminate.
  - intros Hiff. destruct (proj1 (Hiff IndexError) Hraise) as (e & He & _).
    discriminate.
Qed.

(** ** Determinism *)

(** C6. Two calls of [verify] with the same parameters and threshold, the
    same expectation times and expected vectors, whose simulations hand back
    the same thing (the same exception, or outputs that sample alike at the
    expectation times), return the same result, field for field. *)
Theorem verify_deterministic
    {F : Type} {arith : Float64 F} {E : Type} {collab : Collaborators F E}
    (self1 self2 : Verifier F) (params : option (list (string * F))) :
  time (spec_file_ self1) = time (spec_file_ self2) ->
  data (spec_file_ self1) = data (spec_file_ self2) ->
  threshold_ self1 = threshold_ self2 ->
  same_outputs (spec_file_ self1)
    (simulation_of self1 params) (simulation_of self2 params) ->
  fst (verify self1 params) = fst (verify self2 params).
Proof.
  intros Htime Hdata Hth Hsame. rewrite !verify_check, <- Hth.
  unfold same_outputs in Hsame.
  destruct (simulation_of self1 params) as [o1|x1],
           (simulation_of self2 params) as [o2|x2]; try contradiction; cbn [bind].
  - now apply check_ext.
  - now subst.
Qed.

(** The failure scenario run twice, the simulator having been given a
    parameter in between: the same failure. *)
Lemma verify_deterministic_witness :
  fst (verify (Scenario.verifier Scenario.far_reading) None) =
  fst (verify (Scenario.verifier_rerun Scenario.far_reading) None).
Proof.
  apply (@verify_deterministic _ _ _ (Scenario.bench Scenario.far_reading)).
  - reflexivity.
  - reflexivity.
  - reflexivity.
  - intros t _. reflexivity.
Defined.

(** ** Construction *)

(** C10. Constructing a [Verifier] from a configuration whose [method] is
    not ["spec_file"] fails with [AssertionError], whatever the
    collaborators would do; with [method = "spec_file"] the assertion does
    not fail. *)
Theorem init_requires_spec_file
    {F E : Type} {collab : Collaborators F E}
    (configuration : VerifyConfiguration F) :
  (method configuration <> "spec_file"%string ->
     __init__ configuration = Raise AssertionError) /\
  (method configuration = "spec_file"%string ->
     __init__ configuration <> Raise AssertionError).
Proof.
  unfold __init__. split.
  - intros Hm. apply String.eqb_neq in Hm. now rewrite Hm.
  - intros Hm. apply String.eqb_eq in Hm. rewrite Hm. cbn [negb].
    destruct (new_CircuitSimulator _ _ _) as [e|simulator]; [discriminate|].
    cbn [call bind].
    destruct (new_SpecFile _) as [e|spec_file]; [discriminate|].
    cbn [call bind].
    destruct (change_traces _ _) as [[e|u] simulator']; discriminate.
Qed.

(** On a bench where creating a collaborator raises, another method still
    fails on the assertion, and the right one on the simulator. *)
Lemma init_requires_spec_file_witness :
  __init__ (collab := Scenario.broken_bench)
    (Scenario.configuration "sweep") = Raise AssertionError /\
  __init__ (collab := Scenario.broken_bench)
    (Scenario.configuration "spec_file") <> Raise AssertionError.
Proof.
  split.
  - apply (@init_requires_spec_file _ _ Scenario.broken_bench
             (Scenario.configuration "sweep")).
    simpl. discriminate.
  - apply (@init_requires_spec_file _ _ Scenario.broken_bench
             (Scenario.configuration "spec_file")).
    reflexivity.
Defined.

(** ** Calibration invariance *)

(** C5. In exact arithmetic, adding one constant to the calibration sample,
    to every sample, to the calibration expectation and to every expected
    vector leaves the result of [verify] as it was: [succeed],
    [failure_time] and [failure_point]. *)
Theorem verify_offset_invariant
    {E : Type} {collab : Collaborators Q E}
    (self self' : Verifier Q) (params params' : option (list (string * Q)))
    (c : Q) :
  spec_file_ self' = shift_spec c (spec_file_ self) ->
  threshold_ self' = threshold_ self ->
  match simulation_of self params, simulation_of self' params' with
  | Return o, Return o' => shifted_output c (spec_file_ self) o o'
  | Raise x, Raise x' => x = x'
  | _, _ => False
  end ->
  fst (verify self' params') = fst (verify self params).
Proof.
  intros Hspec Hth Hout. rewrite !verify_check, Hspec, Hth.
  destruct (simulation_of self params) as [o|x],
           (simulation_of self' params') as [o'|x']; try contradiction;
    cbn [bind].
  - now apply check_shift.
  - now subst.
Qed.

(** The boundary scenario with the offset 5 on the trace and on the
    expectation. *)
Lemma verify_offset_invariant_witness :
  fst (verify (Boundary.offset_verifier 5) (Some [("offset"%string, 5%Q)])) =
  fst (verify (Boundary.offset_verifier 0) (Some [("offset"%string, 0%Q)])).
Proof.
  apply (@verify_offset_invariant _ Boundary.offset_bench
           (Boundary.offset_verifier 0) (Boundary.offset_verifier 5)
           (Some [("offset"%string, 0%Q)]) (Some [("offset"%string, 5%Q)]) 5%Q).
  - reflexivity.
  - reflexivity.
  - intros t [<-|[<-|[]]]; vm_compute; reflexivity.
Defined.

(** In binary64 the invariance is lost to rounding: with the offset 2^54
    the samples and the expectations are rounded to multiples of 4, and the
    passing scenario of the spec fails at time 1. *)
Remark binary64_offset_rounding :
  fst (verify (Scenario.offset_verifier 0) (Some [("offset"%string, 0%float)])) =
    Return success /\
  fst (verify (Scenario.offset_verifier 0x1p+54)
         (Some [("offset"%string, 0x1p+54%float)])) =
    Return (failure 1%float [0]).
Proof. split; vm_compute; reflexivity. Qed.

(** ** The scenarios of the spec, end to end

    Construction from the configuration, then [verify] without parameters,
    in binary64: the reading 2.02 passes, the reading 2.3 fails at time 2 on
    signal 0. *)

Example scenario_passes :
  (verifier <- __init__ (collab := Scenario.bench Scenario.close_reading)
                 (Scenario.configuration "spec_file") ;;
   fst (verify verifier None)) = Return success.
Proof. vm_compute. reflexivity. Qed.

Example scenario_fails :
  (verifier <- __init__ (collab := Scenario.bench Scenario.far_reading)
                 (Scenario.configuration "spec_file") ;;
   fst (verify verifier None)) = Return (failure 2%float [0]).
Proof. vm_compute. reflexivity. Qed.

(* ===================================================================== *)
(** * Part V. Further properties of the code                              *)
(* ===================================================================== *)

(** ** [_simulate] *)

(** X1. [_simulate] hands the simulator the keys and the values of the
    dictionary in the dictionary's order, so that zipping them gives the
    items back; [simulate] runs on the simulator as [change_parameters]
    left it, and does not run when [change_parameters] raises. *)
Theorem _simulate_passes_items
    {F E : Type} {collab : Collaborators F E}
    (self : Verifier F) (params : list (string * F)) :
  let parameters := map fst params in
  let values := map snd params in
  combine parameters values = params /\
  (forall e simulator',
     change_parameters (simulator_ self) parameters = (inl e, simulator') ->
     _simulate self params =
       (Raise (CollaboratorError e), with_simulator self simulator')) /\
  (forall u simulator' o simulator'',
     change_parameters (simulator_ self) parameters = (inr u, simulator') ->
     simulate simulator' values = (o, simulator'') ->
     _simulate self params = (call o, with_simulator self simulator'')).
Proof.
  intros parameters values. subst parameters values. split; [|split].
  - induction params as [|[k v] params IH]; simpl; [reflexivity | now rewrite IH].
  - intros e sim' Hcp. unfold _simulate. rewrite split_items_map, Hcp. reflexivity.
  - intros u sim' o sim'' Hcp Hs. unfold _simulate.
    rewrite split_items_map, Hcp, Hs. reflexivity.
Qed.

(** ** What [verify] keeps *)

(** X2. [verify] changes nothing of the verifier but its simulator, which
    it leaves as [_simulate] did: the spec file and the threshold are those
    it started with, whether it returns or raises. *)
Theorem verify_keeps_configuration
    {F : Type} {arith : Float64 F} {E : Type} {collab : Collaborators F E}
    (self : Verifier F) (params : option (list (string * F))) :
  spec_file_ (snd (verify self params)) = spec_file_ self /\
  threshold_ (snd (verify self params)) = threshold_ self /\
  snd (verify self params) =
    snd (_simulate self (match params with None => [] | Some p => p end)).
Proof.
  unfold verify.
  pose proof (_simulate_frame self
                (match params with None => [] | Some p => p end)) as [Hs Ht].
  destruct (_simulate self _) as [r self']. simpl in *. now rewrite Hs, Ht.
Qed.

(** ** Construction *)

(** X3. A verifier that [__init__] returns was built from a configuration
    with method ["spec_file"]: it holds the configured threshold, the spec
    file read from [file_path], and the simulator created from
    [circuit_path] with no plot and then given one plot parameter per name
    of the spec file, in the spec file's order. *)
Theorem init_builds
    {F E : Type} {collab : Collaborators F E}
    (configuration : VerifyConfiguration F) (verifier : Verifier F) :
  __init__ configuration = Return verifier ->
  method configuration = "spec_file"%string /\
  threshold_ verifier = threshold configuration /\
  new_SpecFile (file_path configuration) = inr (spec_file_ verifier) /\
  exists simulator plot_parameters,
    new_CircuitSimulator (circuit_path configuration) []
      (wrspice_compatibility configuration) = inr simulator /\
    map plot_name plot_parameters = names (spec_file_ verifier) /\
    change_traces simulator plot_parameters = (inr tt, simulator_ verifier).
Proof.
  unfold __init__.
  destruct (String.eqb (method configuration) "spec_file") eqn:Hm;
    [|discriminate].
  apply String.eqb_eq in Hm. cbn [negb].
  destruct (new_CircuitSimulator _ _ _) as [e|simulator]; [discriminate|].
  cbn [call bind].
  destruct (new_SpecFile _) as [e|spec_file]; [discriminate|].
  cbn [call bind].
  destruct (change_traces _ _) as [[e|[]] simulator'] eqn:Hct; [discriminate|].
  cbn [call bind]. intros [= <-]. cbn.
  repeat split; try assumption.
  exists simulator, (map Build_PlotParameter (names spec_file)).
  repeat split; [|exact Hct].
  rewrite map_map. apply map_id.
Qed.

(** On the scripted bench the simulator ends up with the trace ["a"]. *)
Lemma init_builds_witness :
  exists simulator plot_parameters,
    new_CircuitSimulator (Collaborators := Scenario.bench Scenario.far_reading)
      "circuit.cir" [] false = inr simulator /\
    map plot_name plot_parameters = ["a"%string] /\
    change_traces (Collaborators := Scenario.bench Scenario.far_reading)
      simulator plot_parameters =
      (inr tt, simulator_ (Scenario.verifier Scenario.far_reading)).
Proof.
  apply (@init_builds _ _ (Scenario.bench Scenario.far_reading)
           (Scenario.configuration "spec_file")
           (Scenario.verifier Scenario.far_reading)).
  reflexivity.
Defined.

(** X4. With method ["spec_file"], the first collaborator to fail decides
    what [__init__] raises: the simulator's constructor, whatever reading
    the spec file would do; else the spec file's; else [change_traces]. *)
Theorem init_raises_first_failure
    {F E : Type} {collab : Collaborators F E}
    (configuration : VerifyConfiguration F) :
  method configuration = "spec_file"%string ->
  let created := new_CircuitSimulator (circuit_path configuration) []
                   (wrspice_compatibility configuration) in
  let read := new_SpecFile (file_path configuration) in
  (forall e, created = inl e ->
     __init__ configuration = Raise (CollaboratorError e)) /\
  (forall simulator e, created = inr simulator -> read = inl e ->
     __init__ configuration = Raise (CollaboratorError e)) /\
  (forall simulator spec_file e,
     created = inr simulator -> read = inr spec_file ->
     fst (change_traces simulator
            (map Build_PlotParameter (names spec_file))) = inl e ->
     __init__ configuration = Raise (CollaboratorError e)).
Proof.
  intros Hm created read. subst created read.
  apply String.eqb_eq in Hm. unfold __init__. rewrite Hm. cbn [negb].
  split; [|split].
  - intros e ->. reflexivity.
  - intros simulator e -> ->. reflexivity.
  - intros simulator spec_file e -> ->. cbn [call bind].
    destruct (change_traces _ _) as [[e'|u] simulator']; simpl;
      [intros [= <-]; reflexivity | discriminate].
Qed.

(** On the bench where nothing can be created, the simulator's exception
    comes out, not the spec file's. *)
Lemma init_raises_first_failure_witness :
  __init__ (collab := Scenario.broken_bench)
    (Scenario.configuration "spec_file") =
    Raise (CollaboratorError "simulator not found"%string).
Proof.
  apply (@init_raises_first_failure _ _ Scenario.broken_bench
           (Scenario.configuration "spec_file") eq_refl).
  reflexivity.
Defined.

(** The witness of X1: a run with one parameter on the scripted bench. *)
Lemma _simulate_passes_items_witness :
  _simulate (Scenario.verifier Scenario.far_reading) [("Ic"%string, 1%float)] =
    (Return (Scenario.trace Scenario.far_reading),
     Scenario.verifier_rerun Scenario.far_reading).
Proof.
  exact (proj2 (proj2 (@_simulate_passes_items _ _
                         (Scenario.bench Scenario.far_reading)
                         (Scenario.verifier Scenario.far_reading)
                         [("Ic"%string, 1%float)]))
           tt (simulator_ (Scenario.verifier_rerun Scenario.far_reading))
           (inr (Scenario.trace Scenario.far_reading))
           (simulator_ (Scenario.verifier_rerun Scenario.far_reading))
           eq_refl eq_refl).
Defined.

(** ** What [verify] raises *)

Section RaiseDetails.
Context {F : Type} {arith : Float64 F} {E : Type} {collab : Collaborators F E}.

(** Operands that neither pair up nor stretch do not broadcast. *)
Lemma np_binop_mismatch (f : F -> F -> F) (a b : list F) :
  length a <> length b -> length a <> 1 -> length b <> 1 ->
  np_binop (E := E) f a b = Raise ValueError.
Proof.
  intros Hab Ha Hb. unfold np_binop.
  apply Nat.eqb_neq in Hab. rewrite Hab.
  destruct a as [|x [|x' a]]; destruct b as [|y [|y' b]]; simpl in *;
    try reflexivity; congruence.
Qed.
End RaiseDetails.

(** X5. Whatever the data, [verify] raises nothing but numpy's
    [IndexError] and [ValueError] and the exceptions of its collaborators,
    these as they were raised: by [change_parameters], by [simulate], or by
    the sampling function at a time point of the spec file. *)
Theorem verify_raises_only
    {F : Type} {arith : Float64 F} {E : Type} {collab : Collaborators F E}
    (self : Verifier F) (params : option (list (string * F))) (x : exn E) :
  fst (verify self params) = Raise x ->
  let items := match params with None => [] | Some p => p end in
  x = IndexError \/ x = ValueError \/
  exists e, x = CollaboratorError e /\
    (fst (change_parameters (simulator_ self) (map fst items)) = inl e \/
     (exists simulator',
        change_parameters (simulator_ self) (map fst items) = (inr tt, simulator') /\
        fst (simulate simulator' (map snd items)) = inl e) \/
     (exists output t,
        simulation_of self params = Return output /\
        In t (time (spec_file_ self)) /\ sample output t = inl e)).
Proof.
  intros Hraise items. subst items. rewrite verify_check in Hraise.
  pose proof (_simulate_calls self
                (match params with None => [] | Some p => p end)) as Hcalls.
  fold (simulation_of self params) in Hcalls.
  destruct (simulation_of self params) as [output|x0] eqn:Hsim;
    cbn [bind] in Hraise.
  - apply check_Raise_kinds in Hraise as [-> | [-> | (t & e & Ht & Hs & ->)]];
      auto.
    right; right. exists e. split; [reflexivity|]. right; right.
    now exists output, t.
  - injection Hraise as ->. right; right.
    destruct (change_parameters _ _) as [[e|[]] sim'] eqn:Hcp.
    + exists e. split; [congruence | now left].
    + destruct (fst (simulate sim' _)) as [e|o] eqn:Hs; [|discriminate].
      exists e. split; [simpl in Hcalls; congruence|].
      right; left. now exists sim'.
Qed.

(** The simulation that stopped before time 2 again: the exception is the
    sampling function's. *)
Lemma verify_raises_only_witness :
  exists e, CollaboratorError "time out of range"%string = CollaboratorError e /\
    exists t, In t (time Scenario.golden) /\ Scenario.short_trace t = inl e.
Proof.
  destruct (@verify_raises_only _ _ _ Scenario.short_bench
              Scenario.short_verifier None
              (CollaboratorError "time out of range"%string))
    as [H | [H | (e & He & [H | [(s' & _ & H) | (o & t & [= <-] & Ht & Hs)]])]];
    try discriminate.
  - vm_compute. reflexivity.
  - exists e. split; [exact He|]. now exists t.
Defined.

(** X6. When the spec file has no time point or no expected vector (its
    rows being of one length), [verify] raises [IndexError] once the
    simulation has run. *)
Theorem verify_without_calibration_point
    {F : Type} {arith : Float64 F} {E : Type} {collab : Collaborators F E}
    (self : Verifier F) (params : option (list (string * F)))
    (output : CircuitSimulatorOutput) :
  simulation_of self params = Return output ->
  (forall row row', In row (data (spec_file_ self)) ->
                    In row' (data (spec_file_ self)) ->
                    length row = length row') ->
  time (spec_file_ self) = [] \/ data (spec_file_ self) = [] ->
  fst (verify self params) = Raise IndexError.
Proof.
  intros Hsim Hrect Hempty. rewrite verify_check, Hsim. cbn [bind].
  unfold check.
  rewrite np_array2_rectangular
    with (n := length (hd [] (data (spec_file_ self)))).
  2:{ intros row Hrow. apply Hrect; [exact Hrow|].
      destruct (data (spec_file_ self)); [destruct Hrow | now left]. }
  cbn [bind]. unfold np_getitem.
  destruct (data (spec_file_ self)) as [|e0 rows]; [reflexivity|].
  destruct Hempty as [-> | ?]; [reflexivity | discriminate].
Qed.

Lemma verify_without_calibration_point_witness :
  fst (verify Fixture.blank_verifier None) = Raise IndexError.
Proof.
  apply (@verify_without_calibration_point _ _ _
           (Scenario.bench Scenario.far_reading) Fixture.blank_verifier None
           (Scenario.trace Scenario.far_reading)).
  - reflexivity.
  - intros row row' [].
  - left. reflexivity.
Defined.

(** X7. When the trace has [m] signals and the spec file [n], with [m] and
    [n] different and neither equal to 1, and there is a point to check,
    [verify] raises [ValueError] at the first checked point. *)
Theorem verify_signal_count_mismatch
    {F : Type} {arith : Float64 F} {E : Type} {collab : Collaborators F E}
    (self : Verifier F) (params : option (list (string * F)))
    (output : CircuitSimulatorOutput)
    (t0 t1 : F) (s0 s1 : list F) (m n : nat) :
  simulation_of self params = Return output ->
  nth_error (time (spec_file_ self)) 0 = Some t0 -> sample output t0 = inr s0 ->
  nth_error (time (spec_file_ self)) 1 = Some t1 -> sample output t1 = inr s1 ->
  length s0 = m -> length s1 = m ->
  (forall row, In row (data (spec_file_ self)) -> length row = n) ->
  2 <= length (data (spec_file_ self)) ->
  m <> n -> m <> 1 -> n <> 1 ->
  fst (verify self params) = Raise ValueError.
Proof.
  intros Hsim Ht0 Hs0 Ht1 Hs1 Ls0 Ls1 Hrows Hdata Hmn Hm Hn.
  rewrite verify_check, Hsim. cbn [bind]. unfold check.
  rewrite np_array2_rectangular with (n := n) by exact Hrows. cbn [bind].
  destruct (nth_error (data (spec_file_ self)) 0) as [e0|] eqn:He0;
    [|apply nth_error_None in He0; lia].
  destruct (nth_error (data (spec_file_ self)) 1) as [e1|] eqn:He1;
    [|apply nth_error_None in He1; lia].
  unfold np_getitem at 1. rewrite He0. cbn [bind].
  unfold np_getitem at 1. rewrite Ht0. cbn [bind]. rewrite Hs0. cbn [call bind].
  assert (HN : 1 < length (time (spec_file_ self)))
    by (apply nth_error_Some; congruence).
  rewrite (@verify_loop_first _ _ _ 1 (length (time (spec_file_ self)) - 1) 1);
    [ | lia | intros; lia ].
  assert (Le0 : length e0 = n) by (eapply Hrows, nth_error_In; exact He0).
  assert (Le1 : length e1 = n) by (eapply Hrows, nth_error_In; exact He1).
  unfold verify_step, np_getitem, np_sub. rewrite Ht1. cbn [bind].
  rewrite Hs1. cbn [call bind].
  rewrite np_binop_aligned by congruence. cbn [bind]. rewrite He1. cbn [bind].
  rewrite np_binop_aligned by congruence. cbn [bind].
  rewrite np_binop_mismatch; [reflexivity | | | ];
    unfold np_div_scalar; rewrite ?length_map, !zip_with_length; congruence.
Qed.

Lemma verify_signal_count_mismatch_witness :
  fst (verify Fixture.mismatched_verifier None) = Raise ValueError.
Proof.
  apply (@verify_signal_count_mismatch _ _ _ Fixture.triple_bench
           Fixture.mismatched_verifier None Fixture.triple_trace
           0%float 1%float [0; 0; 0]%float [1; 1; 1]%float 3 2);
    try reflexivity; try (simpl; lia).
  intros row [<-|[<-|[]]]; reflexivity.
Defined.

(** ** Early exit *)

Section EarlyExit.
Context {F : Type} {arith : Float64 F} {E : Type} {collab : Collaborators F E}.

(** An iteration reads the output at its own time point only. *)
Lemma verify_step_ext_at threshold (o1 o2 : CircuitSimulatorOutput)
    time_steps phase_flips (e0 s0 : list F) k :
  (forall t, nth_error time_steps k = Some t -> sample o1 t = sample o2 t) ->
  verify_step threshold o1 time_steps phase_flips e0 s0 k =
  verify_step threshold o2 time_steps phase_flips e0 s0 k.
Proof.
  intros Hsame. unfold verify_step, np_getitem.
  destruct (nth_error time_steps k) as [t|]; [|reflexivity].
  cbn [bind]. now rewrite (Hsame t eq_refl).
Qed.

(** A failure found by the checks stands on the trace up to its time
    point. *)
Lemma check_failure_prefix (spec_file : SpecFile F) threshold
    (o1 o2 : CircuitSimulatorOutput) r t i :
  NoDup (time spec_file) ->
  check spec_file threshold o1 = Return r ->
  failure_time r = Some t ->
  nth_error (time spec_file) i = Some t ->
  (forall k t', k <= i -> nth_error (time spec_file) k = Some t' ->
                sample o1 t' = sample o2 t') ->
  check spec_file threshold o2 = Return r.
Proof.
  intros Hnodup Hcheck Hft Hi Hsame. unfold check in *.
  destruct (np_array2 (data spec_file)) as [phase_flips|]; [|discriminate].
  cbn [bind] in *.
  destruct (np_getitem phase_flips 0) as [e0|]; [|discriminate].
  cbn [bind] in *. unfold np_getitem in *.
  destruct (nth_error (time spec_file) 0) as [t0|] eqn:Ht0; [|discriminate].
  cbn [bind] in *. rewrite <- (Hsame 0 t0) by (lia || assumption).
  destruct (call (sample o1 t0)) as [s0|]; [|discriminate]. cbn [bind] in *.
  set (step1 := verify_step threshold o1 (time spec_file) phase_flips e0 s0) in *.
  set (step2 := verify_step threshold o2 (time spec_file) phase_flips e0 s0).
  pose proof (verify_loop_inv step1 1 (length (time spec_file) - 1)) as Hinv.
  rewrite Hcheck in Hinv.
  destruct Hinv as [[-> _] | (i' & Hi' & Hpre & Hstep)]; [discriminate|].
  pose proof Hstep as Hfound.
  apply verify_step_Some in Hfound as (t' & mask & Ht' & _ & ->).
  simpl in Hft. injection Hft as ->.
  assert (i' = i).
  { apply (proj1 (NoDup_nth_error (time spec_file)) Hnodup);
      [apply nth_error_Some | ]; congruence. }
  subst i'.
  assert (Hsteps : forall k, k <= i -> step2 k = step1 k).
  { intros k Hk. symmetry. apply verify_step_ext_at.
    intros t' Hk'. now apply (Hsame k). }
  rewrite (@verify_loop_first _ _ step2 1 (length (time spec_file) - 1) i);
    [ | lia | ].
  - rewrite Hsteps, Hstep by lia. reflexivity.
  - intros k Hk. rewrite Hsteps by lia. apply Hpre. lia.
Qed.
End EarlyExit.

(** X8. A failure does not depend on the trace after its time point: when
    the expectation times are distinct and a run of [verify] returns a
    failure at [time()[i]], any run on the same spec file and threshold
    whose output samples alike at the time points up to index [i] returns
    the same failure, whatever its sampling function does later, raising
    included. *)
Theorem verify_failure_ignores_later_trace
    {F : Type} {arith : Float64 F} {E : Type} {collab : Collaborators F E}
    (self1 self2 : Verifier F) (params1 params2 : option (list (string * F)))
    (o1 o2 : CircuitSimulatorOutput) (result : VerifierResult F)
    (t : F) (i : nat) :
  spec_file_ self2 = spec_file_ self1 ->
  threshold_ self2 = threshold_ self1 ->
  simulation_of self1 params1 = Return o1 ->
  simulation_of self2 params2 = Return o2 ->
  NoDup (time (spec_file_ self1)) ->
  fst (verify self1 params1) = Return result ->
  failure_time result = Some t ->
  nth_error (time (spec_file_ self1)) i = Some t ->
  (forall k t', k <= i -> nth_error (time (spec_file_ self1)) k = Some t' ->
                sample o1 t' = sample o2 t') ->
  fst (verify self2 params2) = Return result.
Proof.
  intros Hspec Hth Hsim1 Hsim2 Hnodup Hrun Hft Hi Hsame.
  rewrite verify_check, Hsim1 in Hrun. rewrite verify_check, Hsim2, Hspec, Hth.
  cbn [bind] in *. now apply check_failure_prefix with (o1 := o1) (t := t) (i := i).
Qed.

(** The trace cut after time 1 fails as the full one does, at time 1,
    though sampling it at time 2 would raise. *)
Lemma verify_failure_ignores_later_trace_witness :
  Fixture.cut_trace 2%float = inl "time out of range"%string /\
  fst (verify Fixture.switch_verifier (Some [("Ic"%string, 1%float)])) =
    Return (failure 1%float [0]).
Proof.
  split; [vm_compute; reflexivity|].
  apply (@verify_failure_ignores_later_trace _ _ _ Fixture.switch_bench
           Fixture.switch_verifier Fixture.switch_verifier
           None (Some [("Ic"%string, 1%float)])
           Fixture.long_trace Fixture.cut_trace
           (failure 1%float [0]) 1%float 1);
    try reflexivity.
  - repeat constructor; simpl; intros H;
      repeat (destruct H as [H|H]; [vm_compute in H; discriminate|]); exact H.
  - intros [|[|k]] t' Hk Ht'; try lia; simpl in Ht'; injection Ht' as <-;
      vm_compute; reflexivity.
Defined.

(** ** Thresholds and values that compare with nothing *)

Section ThresholdFacts.
Context {F : Type} {arith : Float64 F} {E : Type} {collab : Collaborators F E}.

(** An iteration that returns a failure found a value above the
    threshold. *)
Lemma verify_step_Some_above threshold (output : CircuitSimulatorOutput)
    time_steps phase_flips (e0 s0 : list F) i r :
  verify_step threshold output time_steps phase_flips e0 s0 i = Return (Some r) ->
  exists d, fgt d threshold = true.
Proof.
  unfold verify_step.
  destruct (np_getitem time_steps i) as [t|]; [|discriminate]. cbn [bind].
  destruct (call (sample output t)) as [s|]; [|discriminate]. cbn [bind].
  destruct (np_sub s s0) as [d|]; [|discriminate]. cbn [bind].
  destruct (np_getitem phase_flips i) as [e|]; [|discriminate]. cbn [bind].
  destruct (np_sub e e0) as [p|]; [|discriminate]. cbn [bind].
  destruct (np_sub _ p) as [delta|]; [|discriminate]. cbn [bind].
  destruct (np_any _) eqn:Hany; [|discriminate]. intros _.
  unfold np_any, np_gt_scalar in Hany.
  apply existsb_exists in Hany as (b & Hb & ->).
  apply in_map_iff in Hb as (d' & Hd & _). now exists d'.
Qed.

(** A result of the checks other than the success comes from an iteration
    that returned it. *)
Lemma check_Return_step (spec_file : SpecFile F) threshold
    (output : CircuitSimulatorOutput) r :
  check spec_file threshold output = Return r ->
  r = success \/
  exists phase_flips e0 s0 i,
    1 <= i /\
    verify_step threshold output (time spec_file) phase_flips e0 s0 i =
      Return (Some r).
Proof.
  unfold check.
  destruct (np_array2 (data spec_file)) as [phase_flips|]; [|discriminate].
  cbn [bind].
  destruct (np_getitem phase_flips 0) as [e0|]; [|discriminate]. cbn [bind].
  destruct (np_getitem (time spec_file) 0) as [t0|]; [|discriminate]. cbn [bind].
  destruct (call (sample output t0)) as [s0|]; [|discriminate]. cbn [bind].
  intros Hloop.
  pose proof (verify_loop_inv
                (verify_step threshold output (time spec_file) phase_flips e0 s0)
                1 (length (time spec_file) - 1)) as Hinv.
  rewrite Hloop in Hinv. destruct Hinv as [[-> _] | (i & Hi & _ & Hstep)].
  - now left.
  - right. exists phase_flips, e0, s0, i. split; [lia | exact Hstep].
Qed.

(** With a threshold nothing is above, the checks never fail. *)
Lemma check_never_above (spec_file : SpecFile F) threshold
    (output : CircuitSimulatorOutput) r :
  (forall d, fgt d threshold = false) ->
  check spec_file threshold output = Return r -> r = success.
Proof.
  intros Hnone Hcheck.
  destruct (check_Return_step _ _ _ Hcheck)
    as [-> | (pf & e0 & s0 & i & _ & Hstep)]; [reflexivity|].
  apply verify_step_Some_above in Hstep as (d & Hd).
  rewrite Hnone in Hd. discriminate.
Qed.
End ThresholdFacts.

(** *** binary64: not-a-number and infinity *)

Lemma SFcompare_refl (s : spec_float) :
  s <> S754_nan -> SFcompare s s = Some Eq.
Proof.
  destruct s as [b|b| |b m e]; simpl; intros H; try congruence.
  - now destruct b.
  - rewrite Z.compare_refl, Pos.compare_cont_refl. now destruct b.
Qed.

Lemma is_nan_Prim2SF (x : float) :
  PrimFloat.is_nan x = true <-> Prim2SF x = S754_nan.
Proof.
  unfold PrimFloat.is_nan. rewrite FloatAxioms.eqb_spec. unfold SFeqb. split.
  - intros H. destruct (Prim2SF x) as [b|b| |b m e] eqn:Hx; try reflexivity;
      rewrite SFcompare_refl in H by discriminate; discriminate.
  - intros ->. reflexivity.
Qed.

Lemma nan_sub_l (x y : float) :
  PrimFloat.is_nan x = true -> PrimFloat.is_nan (x - y) = true.
Proof. rewrite !is_nan_Prim2SF, sub_spec. intros ->. reflexivity. Qed.

Lemma nan_div_l (x y : float) :
  PrimFloat.is_nan x = true -> PrimFloat.is_nan (x / y) = true.
Proof. rewrite !is_nan_Prim2SF, div_spec. intros ->. reflexivity. Qed.

Lemma nan_abs (x : float) :
  PrimFloat.is_nan x = true -> PrimFloat.is_nan (abs x) = true.
Proof. rewrite !is_nan_Prim2SF, abs_spec. intros ->. reflexivity. Qed.

(** Not-a-number is above nothing, and nothing is above it. *)
Lemma nan_not_above (d th : float) :
  PrimFloat.is_nan d = true -> PrimFloat.ltb th d = false.
Proof.
  rewrite is_nan_Prim2SF, ltb_spec. intros ->. unfold SFltb.
  now destruct (Prim2SF th).
Qed.

Lemma nothing_above_nan (d th : float) :
  PrimFloat.is_nan th = true -> PrimFloat.ltb th d = false.
Proof. rewrite is_nan_Prim2SF, ltb_spec. intros ->. reflexivity. Qed.

Lemma nothing_above_infinity (d : float) : PrimFloat.ltb infinity d = false.
Proof.
  rewrite ltb_spec.
  replace (Prim2SF infinity) with (S754_infinity false) by reflexivity.
  unfold SFltb. destruct (Prim2SF d) as [b|b| |b m e]; simpl; try reflexivity.
  now destruct b.
Qed.

(** X9. In binary64, a verifier whose threshold is not-a-number or plus
    infinity never reports a failure: whatever [verify] returns is the
    success. *)
Theorem verify_threshold_nan_or_infinity
    {E : Type} {collab : Collaborators float E}
    (self : Verifier float) (params : option (list (string * float)))
    (result : VerifierResult float) :
  PrimFloat.is_nan (threshold_ self) = true \/ threshold_ self = infinity ->
  fst (verify self params) = Return result ->
  result = {| succeed := true; failure_time := None; failure_point := None |}.
Proof.
  intros Hth. rewrite verify_check.
  destruct (simulation_of self params) as [output|x]; [|discriminate].
  cbn [bind]. apply check_never_above. intros d. simpl.
  destruct Hth as [Hnan | ->];
    [now apply nothing_above_nan | apply nothing_above_infinity].
Qed.

(** The failing scenario of the spec passes under an infinite threshold. *)
Lemma verify_threshold_nan_or_infinity_witness :
  fst (verify Fixture.lenient_verifier None) =
    Return {| succeed := true; failure_time := None; failure_point := None |}.
Proof.
  assert (H : exists r, fst (verify Fixture.lenient_verifier None) = Return r)
    by (eexists; vm_compute; reflexivity).
  destruct H as (r & Hr). rewrite Hr. f_equal.
  apply (@verify_threshold_nan_or_infinity _
           (Scenario.bench Scenario.far_reading)
           Fixture.lenient_verifier None r).
  - right. reflexivity.
  - exact Hr.
Defined.

(** *** Samples that compare with nothing *)

Section Poison.
Context {F : Type} {arith : Float64 F} {E : Type} {collab : Collaborators F E}.

(** A property of values that subtraction (on the left), division and the
    absolute value hand on, and whose values are above no threshold. *)
Variable poisoned : F -> Prop.
Hypothesis poisoned_sub : forall x y, poisoned x -> poisoned (fsub x y).
Hypothesis poisoned_div : forall x y, poisoned x -> poisoned (fdiv x y).
Hypothesis poisoned_abs : forall x, poisoned x -> poisoned (fabs x).
Hypothesis poisoned_not_above : forall d th, poisoned d -> fgt d th = false.

(** Every entry of an elementwise difference comes from some entry of the
    left operand, broadcast or not. *)
Lemma np_sub_poisoned (a b r : list F) :
  Forall poisoned a -> np_sub (E := E) a b = Return r -> Forall poisoned r.
Proof.
  intros Ha. unfold np_sub, np_binop.
  destruct (length a =? length b).
  - intros [= <-]. unfold zip_with. revert b.
    induction Ha as [|x a Hx Ha IH]; intros [|y b]; simpl; constructor; auto.
  - destruct a as [|x [|x' a]]; destruct b as [|y [|y' b]];
      try discriminate; intros [= <-]; simpl;
      repeat match goal with
             | H : Forall _ (_ :: _) |- _ => inversion H; subst; clear H
             end;
      repeat constructor; auto;
      apply Forall_forall; intros z Hz; apply in_map_iff in Hz as (w & <- & Hw);
      auto.
    all: apply poisoned_sub;
      match goal with
      | H : Forall poisoned ?l, Hw : In _ ?l |- _ =>
          exact (proj1 (Forall_forall poisoned l) H _ Hw)
      end.
Qed.

(** An iteration whose samples are all poisoned does not return a
    failure. *)
Lemma verify_step_poisoned threshold (output : CircuitSimulatorOutput)
    time_steps phase_flips (e0 s0 : list F) i t r :
  nth_error time_steps i = Some t ->
  (forall v, sample output t = inr v -> Forall poisoned v) ->
  verify_step threshold output time_steps phase_flips e0 s0 i <> Return (Some r).
Proof.
  intros Ht Hv. unfold verify_step, np_getitem. rewrite Ht. cbn [bind].
  destruct (sample output t) as [e|s]; [discriminate|]. cbn [call bind].
  specialize (Hv s eq_refl).
  destruct (np_sub s s0) as [d|] eqn:Hd; [|discriminate]. cbn [bind].
  eapply np_sub_poisoned in Hd; [|exact Hv].
  destruct (nth_error phase_flips i) as [e|]; [|discriminate]. cbn [bind].
  destruct (np_sub e e0) as [p|]; [|discriminate]. cbn [bind].
  destruct (np_sub (np_div_scalar d _) p) as [delta|] eqn:Hdelta;
    [|discriminate]. cbn [bind].
  assert (Hdiv : Forall poisoned (np_div_scalar d (fmul ftwo np_pi))).
  { unfold np_div_scalar. apply Forall_forall. intros z Hz.
    apply in_map_iff in Hz as (w & <- & Hw). apply poisoned_div.
    exact (proj1 (Forall_forall poisoned d) Hd _ Hw). }
  eapply np_sub_poisoned in Hdelta; [|exact Hdiv].
  replace (np_any _) with false; [discriminate|].
  symmetry. unfold np_any, np_gt_scalar, np_abs. rewrite map_map.
  clear - Hdelta poisoned_abs poisoned_not_above.
  induction Hdelta as [|x delta Hx _ IH]; [reflexivity|].
  simpl. now rewrite poisoned_not_above by now apply poisoned_abs.
Qed.

(** When every sample past the calibration point is poisoned, the checks
    never fail. *)
Lemma check_poisoned (spec_file : SpecFile F) threshold
    (output : CircuitSimulatorOutput) r :
  (forall t v, In t (tl (time spec_file)) -> sample output t = inr v ->
               Forall poisoned v) ->
  check spec_file threshold output = Return r -> r = success.
Proof.
  intros Hpoison Hcheck.
  destruct (check_Return_step _ _ _ Hcheck)
    as [-> | (pf & e0 & s0 & i & Hi & Hstep)]; [reflexivity|].
  exfalso. pose proof Hstep as Hfound.
  apply verify_step_Some in Hfound as (t & mask & Ht & _ & _).
  apply (@verify_step_poisoned threshold output (time spec_file) pf e0 s0 i t r Ht);
    [|exact Hstep].
  intros v. apply Hpoison.
  destruct i as [|i]; [lia|]. destruct (time spec_file) as [|t0 times];
    [discriminate|]. simpl in *. eapply nth_error_In; exact Ht.
Qed.
End Poison.

(** X10. In binary64, a trace that reads not-a-number on every signal at
    every time point past the calibration point is never reported as
    failing: whatever [verify] returns is the success. *)
Theorem verify_nan_samples_pass
    {E : Type} {collab : Collaborators float E}
    (self : Verifier float) (params : option (list (string * float)))
    (output : CircuitSimulatorOutput) (result : VerifierResult float) :
  simulation_of self params = Return output ->
  (forall t v, In t (tl (time (spec_file_ self))) -> sample output t = inr v ->
               Forall (fun x => PrimFloat.is_nan x = true) v) ->
  fst (verify self params) = Return result ->
  result = {| succeed := true; failure_time := None; failure_point := None |}.
Proof.
  intros Hsim Hnan. rewrite verify_check, Hsim. cbn [bind].
  apply (@check_poisoned _ _ _ _ (fun x => PrimFloat.is_nan x = true));
    try assumption; simpl.
  - intros x y. apply nan_sub_l.
  - intros x y. apply nan_div_l.
  - apply nan_abs.
  - intros d th. apply nan_not_above.
Qed.

(** The trace of the spec with not-a-number at times 1 and 2 passes. *)
Lemma verify_nan_samples_pass_witness :
  fst (verify Fixture.nan_verifier None) =
    Return {| succeed := true; failure_time := None; failure_point := None |}.
Proof.
  assert (H : exists r, fst (verify Fixture.nan_verifier None) = Return r)
    by (eexists; vm_compute; reflexivity).
  destruct H as (r & Hr). rewrite Hr. f_equal.
  apply (@verify_nan_samples_pass _ Fixture.nan_bench
           Fixture.nan_verifier None Fixture.nan_trace r).
  - reflexivity.
  - intros t v [<-|[<-|[]]]; vm_compute; intros [= <-];
      repeat constructor.
  - exact Hr.
Defined.

(** ** Raising the threshold *)

Section Weaker.
Context {F : Type} {arith : Float64 F} {E : Type} {collab : Collaborators F E}.

Variables threshold threshold' : F.

(** [threshold'] lets through whatever [threshold] lets through. *)
Hypothesis weaker : forall d, fgt d threshold = false -> fgt d threshold' = false.

Lemma verify_step_None_weaker (output : CircuitSimulatorOutput)
    time_steps phase_flips (e0 s0 : list F) i :
  verify_step threshold output time_steps phase_flips e0 s0 i = Return None ->
  verify_step threshold' output time_steps phase_flips e0 s0 i = Return None.
Proof.
  unfold verify_step.
  destruct (np_getitem time_steps i) as [t|]; [|discriminate]. cbn [bind].
  destruct (call (sample output t)) as [s|]; [|discriminate]. cbn [bind].
  destruct (np_sub s s0) as [d|]; [|discriminate]. cbn [bind].
  destruct (np_getitem phase_flips i) as [e|]; [|discriminate]. cbn [bind].
  destruct (np_sub e e0) as [p|]; [|discriminate]. cbn [bind].
  destruct (np_sub _ p) as [delta|]; [|discriminate]. cbn [bind].
  destruct (np_any (np_gt_scalar (np_abs delta) threshold)) eqn:Hany;
    [discriminate|]. intros _.
  replace (np_any (np_gt_scalar (np_abs delta) threshold')) with false;
    [reflexivity|].
  symmetry. unfold np_any, np_gt_scalar in *.
  induction (np_abs delta) as [|x l IH]; [reflexivity|].
  simpl in *. apply orb_false_iff in Hany as [Hx Hl].
  now rewrite (weaker _ Hx), IH.
Qed.

Lemma check_success_weaker (spec_file : SpecFile F)
    (output : CircuitSimulatorOutput) :
  check spec_file threshold output = Return success ->
  check spec_file threshold' output = Return success.
Proof.
  unfold check.
  destruct (np_array2 (data spec_file)) as [phase_flips|]; [|discriminate].
  cbn [bind].
  destruct (np_getitem phase_flips 0) as [e0|]; [|discriminate]. cbn [bind].
  destruct (np_getitem (time spec_file) 0) as [t0|]; [|discriminate]. cbn [bind].
  destruct (call (sample output t0)) as [s0|]; [|discriminate]. cbn [bind].
  intros Hloop.
  pose proof (verify_loop_inv
                (verify_step threshold output (time spec_file) phase_flips e0 s0)
                1 (length (time spec_file) - 1)) as Hinv.
  rewrite Hloop in Hinv. destruct Hinv as [[_ Hall] | (i & _ & _ & Hstep)].
  - apply verify_loop_pass. intros k Hk.
    apply verify_step_None_weaker, Hall, Hk.
  - apply verify_step_Some in Hstep as (t & mask & _ & _ & Hr). discriminate.
Qed.
End Weaker.

(** The simulation depends on the verifier through its simulator only. *)
Lemma simulation_of_simulator {F E : Type} {collab : Collaborators F E}
    (self self' : Verifier F) params :
  simulator_ self' = simulator_ self ->
  simulation_of self' params = simulation_of self params.
Proof.
  intros Hsim. unfold simulation_of. now rewrite !_simulate_calls, Hsim.
Qed.

(** X11. In exact arithmetic, raising the threshold keeps a success: when
    [verify] succeeds, it succeeds on the same simulator and spec file
    under any larger threshold. *)
Theorem verify_threshold_monotone
    {E : Type} {collab : Collaborators Q E}
    (self self' : Verifier Q) (params : option (list (string * Q))) :
  simulator_ self' = simulator_ self ->
  spec_file_ self' = spec_file_ self ->
  (threshold_ self <= threshold_ self')%Q ->
  fst (verify self params) =
    Return {| succeed := true; failure_time := None; failure_point := None |} ->
  fst (verify self' params) =
    Return {| succeed := true; failure_time := None; failure_point := None |}.
Proof.
  intros Hsim Hspec Hle. rewrite !verify_check.
  rewrite (simulation_of_simulator self self' params Hsim), Hspec.
  destruct (simulation_of self params) as [output|x]; [|discriminate].
  cbn [bind]. apply check_success_weaker. intros d. simpl.
  rewrite !negb_false_iff, !Qle_bool_iff. intros Hd.
  now apply Qle_trans with (threshold_ self).
Qed.

(** The boundary scenario passes at 1/10, hence at 1/2. *)
Lemma verify_threshold_monotone_witness :
  fst (verify QFixture.wide_verifier None) =
    Return {| succeed := true; failure_time := None; failure_point := None |}.
Proof.
  apply (@verify_threshold_monotone _ Boundary.bench
           Boundary.verifier QFixture.wide_verifier None).
  - reflexivity.
  - reflexivity.
  - vm_compute. discriminate.
  - vm_compute. reflexivity.
Defined.

(** ** A negative threshold *)

(** In binary64 a negative threshold is below the absolute value of every
    number, and of nothing else. *)
Lemma above_negative (x th : float) :
  PrimFloat.ltb th 0 = true ->
  PrimFloat.ltb th (abs x) = negb (PrimFloat.is_nan (abs x)).
Proof.
  intros Hneg.
  destruct (PrimFloat.is_nan (abs x)) eqn:Hnan; cbn [negb].
  - now apply nan_not_above.
  - assert (Hx : Prim2SF (abs x) <> S754_nan)
      by (intros H; apply is_nan_Prim2SF in H; congruence).
    rewrite ltb_spec in *. rewrite abs_spec in *.
    replace (Prim2SF 0) with (S754_zero false) in Hneg by reflexivity.
    unfold SFltb in *.
    destruct (Prim2SF th) as [s|s| |s m e], (Prim2SF x) as [s'|s'| |s' m' e'];
      simpl in *; try discriminate; try congruence;
      destruct s; simpl in *; try discriminate; reflexivity.
Qed.

(** X13. In binary64, under a negative threshold a verification of
    well-formed data fails at the first checked time point, on exactly the
    signals whose difference there is a number (not NaN), when there is
    such a signal. *)
Theorem verify_negative_threshold
    {E : Type} {collab : Collaborators float E}
    (self : Verifier float) (params : option (list (string * float)))
    (output : CircuitSimulatorOutput) (t1 : float) :
  simulation_of self params = Return output ->
  well_formed (spec_file_ self) output ->
  PrimFloat.ltb (threshold_ self) 0 = true ->
  nth_error (time (spec_file_ self)) 1 = Some t1 ->
  sampled (spec_file_ self) output 0 ->
  sampled (spec_file_ self) output 1 ->
  let numeric j :=
    match signal_difference (spec_file_ self) output 1 j with
    | Some d => negb (PrimFloat.is_nan d)
    | None => false
    end in
  filter numeric (seq 0 (length (names (spec_file_ self)))) <> [] ->
  fst (verify self params) =
    Return {| succeed := false;
              failure_time := Some t1;
              failure_point :=
                Some (filter numeric (seq 0 (length (names (spec_file_ self))))) |}.
Proof.
  intros Hsim WF Hneg Ht1 Hs0 Hs1 numeric Hsome.
  assert (Hall : exceeding (spec_file_ self) output (threshold_ self) 1 =
                 filter numeric (seq 0 (length (names (spec_file_ self))))).
  { unfold exceeding. apply filter_ext. intros j. unfold exceeds, numeric.
    destruct (signal_difference (spec_file_ self) output 1 j) as [d|] eqn:Hd;
      [|reflexivity].
    unfold signal_difference in Hd.
    destruct (sample_at (spec_file_ self) output 1) as [s|]; [|discriminate].
    destruct (sample_at (spec_file_ self) output 0) as [s0|]; [|discriminate].
    destruct (nth_error (data (spec_file_ self)) 1) as [e|]; [|discriminate].
    destruct (nth_error (data (spec_file_ self)) 0) as [e0|]; [|discriminate].
    destruct (nth_error s j) as [s_i|]; [|discriminate].
    destruct (nth_error s0 j) as [s_0|]; [|discriminate].
    destruct (nth_error e j) as [e_i|]; [|discriminate].
    destruct (nth_error e0 j) as [e_0|]; [|discriminate].
    injection Hd as <-. unfold phase_flip_difference.
    apply above_negative. exact Hneg. }
  rewrite <- Hall in *.
  apply (verify_stops_at_first self params Hsim WF); try assumption.
  - lia.
  - intros k Hk. destruct k as [|[|k]]; [assumption | assumption | lia].
  - intros k Hk. lia.
Qed.

(** The passing scenario of the spec under the threshold -0.1: the
    difference at time 1 is 0, and the verification fails there. *)
Lemma verify_negative_threshold_witness :
  fst (verify Fixture.negative_verifier None) =
    Return {| succeed := false;
              failure_time := Some 1%float;
              failure_point := Some [0] |}.
Proof.
  etransitivity.
  - apply (@verify_negative_threshold _ (Scenario.bench Scenario.close_reading)
             Fixture.negative_verifier None
             (Scenario.trace Scenario.close_reading) 1%float).
    + reflexivity.
    + constructor.
      * simpl. lia.
      * reflexivity.
      * intros row [<-|[<-|[<-|[]]]]; reflexivity.
      * intros t v [<-|[<-|[<-|[]]]]; vm_compute; intros [= <-]; reflexivity.
    + reflexivity.
    + reflexivity.
    + vm_compute. discriminate.
    + vm_compute. discriminate.
    + vm_compute. discriminate.
  - vm_compute. reflexivity.
Defined.

(** ** [plot] *)

Section PlotFacts.
Context {F : Type} {arith : Float64 F} {E : Type} {collab : Collaborators F E}
        {plotting : Plotting F E}.

Lemma draw_call_raises_calls {A} (f : Pyplot -> (E + A) * Pyplot) :
  raises_calls (draw_call f).
Proof.
  intros plt x. unfold draw_call. destruct (f plt) as [[e|a] plt']; simpl;
    [intros [= <-]; now exists e | discriminate].
Qed.

Lemma draw_pure_raises_calls {A} (r : E + A) : raises_calls (draw_pure r).
Proof.
  intros plt x. unfold draw_pure. destruct r as [e|a]; simpl;
    [intros [= <-]; now exists e | discriminate].
Qed.

Lemma draw_ret_raises_calls {A} (a : A) : raises_calls (draw_ret a).
Proof. intros plt x. discriminate. Qed.

Lemma draw_bind_raises_calls {A B} (m : Drawing A) (k : A -> Drawing B) :
  raises_calls m -> (forall a, raises_calls (k a)) -> raises_calls (draw_bind m k).
Proof.
  intros Hm Hk plt x. unfold draw_bind.
  destruct (m plt) as [[a|x'] plt'] eqn:Hrun.
  - apply Hk.
  - simpl. intros [= <-]. apply (Hm plt). now rewrite Hrun.
Qed.

Lemma plot_lines_raises_calls (times : list F) : raises_calls (plot_lines times).
Proof.
  induction times as [|t times IH]; simpl.
  - apply draw_ret_raises_calls.
  - apply draw_bind_raises_calls; [apply draw_call_raises_calls | intros _; exact IH].
Qed.

Lemma plot_traces_raises_calls (time_steps : list F) (traces : list Trace) :
  raises_calls (plot_traces time_steps traces).
Proof.
  induction traces as [|trace traces IH]; simpl.
  - apply draw_ret_raises_calls.
  - apply draw_bind_raises_calls; [apply draw_pure_raises_calls|]. intros values.
    apply draw_bind_raises_calls; [apply draw_call_raises_calls | intros _; exact IH].
Qed.

Lemma draw_raises_calls (spec_file : SpecFile F) (output : CircuitSimulatorOutput) :
  raises_calls (draw spec_file output).
Proof.
  unfold draw.
  apply draw_bind_raises_calls; [apply draw_call_raises_calls | intros _].
  apply draw_bind_raises_calls; [apply plot_lines_raises_calls | intros _].
  apply draw_bind_raises_calls; [apply plot_traces_raises_calls | intros _].
  apply draw_bind_raises_calls; [apply draw_call_raises_calls | intros _].
  apply draw_call_raises_calls.
Qed.

(** [plot] is the drawing applied to what the simulation returned. *)
Lemma plot_draw (self : Verifier F) params plt :
  plot self params plt =
    match simulation_of self params with
    | Raise x => (Raise x, snd (verify self params), plt)
    | Return output =>
        (fst (draw (spec_file_ self) output plt), snd (verify self params),
         snd (draw (spec_file_ self) output plt))
    end.
Proof.
  unfold plot, verify, simulation_of.
  pose proof (_simulate_frame self
                (match params with None => [] | Some p => p end)) as [Hs _].
  destruct (_simulate self _) as [[output|x] self']; simpl in *;
    [|reflexivity].
  rewrite Hs. now destruct (draw (spec_file_ self) output plt).
Qed.
End PlotFacts.

(** X14. When the simulation raises, [plot] raises the same exception and
    makes no call to pyplot: the drawing state is as it was. *)
Theorem plot_draws_nothing_without_simulation
    {F : Type} {arith : Float64 F} {E : Type} {collab : Collaborators F E}
    {plotting : Plotting F E}
    (self : Verifier F) (params : option (list (string * F)))
    (plt : Pyplot) (x : exn E) :
  simulation_of self params = Raise x ->
  fst (fst (plot self params plt)) = Raise x /\
  snd (plot self params plt) = plt.
Proof.
  intros Hsim. rewrite plot_draw, Hsim. split; reflexivity.
Qed.

Lemma plot_draws_nothing_without_simulation_witness :
  fst (fst (plot (plotting := Fixture.broken_studio)
              Fixture.broken_verifier None [])) =
    Raise (CollaboratorError "no simulator"%string) /\
  snd (plot (plotting := Fixture.broken_studio)
         Fixture.broken_verifier None []) = [].
Proof.
  apply (@plot_draws_nothing_without_simulation _ _ _ Scenario.broken_bench
           Fixture.broken_studio Fixture.broken_verifier None []).
  reflexivity.
Defined.

(** X15. [plot] leaves the verifier as [verify] does with the same
    parameters: the simulator as the simulation left it, the spec file and
    the threshold untouched. *)
Theorem plot_leaves_verifier_as_verify
    {F : Type} {arith : Float64 F} {E : Type} {collab : Collaborators F E}
    {plotting : Plotting F E}
    (self : Verifier F) (params : option (list (string * F))) (plt : Pyplot) :
  snd (fst (plot self params plt)) = snd (verify self params) /\
  spec_file_ (snd (fst (plot self params plt))) = spec_file_ self /\
  threshold_ (snd (fst (plot self params plt))) = threshold_ self.
Proof.
  assert (Hsame : snd (fst (plot self params plt)) = snd (verify self params))
    by (rewrite plot_draw; now destruct (simulation_of self params)).
  rewrite Hsame. split; [reflexivity|].
  unfold verify.
  pose proof (_simulate_frame self
                (match params with None => [] | Some p => p end)) as [Hs Ht].
  destruct (_simulate self _) as [r self']. simpl in *. now split.
Qed.

(** X16. Whatever the spec file and the output hold, [plot] raises nothing
    of its own: an exception it raises is one a collaborator or pyplot
    raised. *)
Theorem plot_raises_only_calls
    {F : Type} {arith : Float64 F} {E : Type} {collab : Collaborators F E}
    {plotting : Plotting F E}
    (self : Verifier F) (params : option (list (string * F)))
    (plt : Pyplot) (x : exn E) :
  fst (fst (plot self params plt)) = Raise x ->
  exists e, x = CollaboratorError e.
Proof.
  rewrite plot_draw.
  pose proof (_simulate_calls self
                (match params with None => [] | Some p => p end)) as Hcalls.
  fold (simulation_of self params) in Hcalls.
  destruct (simulation_of self params) as [output|x0]; simpl.
  - apply draw_raises_calls.
  - intros [= <-].
    destruct (change_parameters _ _) as [[e|u] sim']; [now exists e; congruence|].
    destruct (fst (simulate sim' _)) as [e|o]; [|discriminate].
    exists e. simpl in Hcalls. congruence.
Qed.

Lemma plot_raises_only_calls_witness :
  exists e, CollaboratorError "no simulator"%string = CollaboratorError e.
Proof.
  apply (@plot_raises_only_calls _ _ _ Scenario.broken_bench
           Fixture.broken_studio Fixture.broken_verifier None []).
  reflexivity.
Defined.

(** *** What a recording pyplot sees *)

Section Recording.
Context {F : Type} {arith : Float64 F} {E : Type} {collab : Collaborators F E}.

Variable time_steps : CircuitSimulatorOutput -> list F.
Variable traces : CircuitSimulatorOutput -> list (string * list F).

Let studio : Plotting F E := recording time_steps traces.

Lemma plot_lines_recorded (times : list F) (plt : list (PlotCommand F)) :
  plot_lines (plotting := studio) times plt =
    (Return tt, plt ++ map (@CmdAxvline F) times).
Proof.
  revert plt. induction times as [|t times IH]; intros plt; simpl.
  - unfold draw_ret. now rewrite app_nil_r.
  - unfold draw_bind, draw_call. simpl. rewrite IH, <- app_assoc. reflexivity.
Qed.

Lemma plot_traces_recorded (x : list F) (trs : list (string * list F))
    (plt : list (PlotCommand F)) :
  plot_traces (plotting := studio) x trs plt =
    (Return tt, plt ++ map (fun trace => CmdPlot x (snd trace) (fst trace)) trs).
Proof.
  revert plt. induction trs as [|trace trs IH]; intros plt; simpl.
  - unfold draw_ret. now rewrite app_nil_r.
  - unfold draw_bind, draw_call, draw_pure. simpl.
    rewrite IH, <- app_assoc. reflexivity.
Qed.

Lemma draw_recorded (spec_file : SpecFile F) (output : CircuitSimulatorOutput)
    (plt : list (PlotCommand F)) :
  draw (plotting := studio) spec_file output plt =
    (Return tt,
     plt ++ [CmdFigure]
         ++ map (@CmdAxvline F) (time spec_file)
         ++ map (fun trace => CmdPlot (time_steps output) (snd trace) (fst trace))
                (traces output)
         ++ [CmdLegend; CmdShow]).
Proof.
  unfold draw, draw_bind at 1. unfold draw_call at 1. simpl.
  unfold draw_bind at 1. rewrite plot_lines_recorded.
  unfold draw_bind at 1. rewrite plot_traces_recorded.
  unfold draw_bind, draw_call. simpl.
  rewrite <- !app_assoc. reflexivity.
Qed.
End Recording.

(** X17. On a pyplot that records its calls and traces that hand out their
    data, a [plot] whose simulation returns makes, in this order: one call
    to [figure], one [axvline] per expectation time in the spec file's
    order, one [plot] per trace of the output in the output's order (the
    output's time steps against the trace's data, labelled with the
    trace's name), one [legend] and one [show]; and returns. *)
Theorem plot_records
    {F : Type} {arith : Float64 F} {E : Type} {collab : Collaborators F E}
    (time_steps : CircuitSimulatorOutput -> list F)
    (traces : CircuitSimulatorOutput -> list (string * list F))
    (self : Verifier F) (params : option (list (string * F)))
    (output : CircuitSimulatorOutput) (plt : list (PlotCommand F)) :
  simulation_of self params = Return output ->
  fst (fst (plot (plotting := recording time_steps traces) self params plt)) =
    Return tt /\
  snd (plot (plotting := recording time_steps traces) self params plt) =
    plt ++ [CmdFigure]
        ++ map (@CmdAxvline F) (time (spec_file_ self))
        ++ map (fun trace => CmdPlot (time_steps output) (snd trace) (fst trace))
               (traces output)
        ++ [CmdLegend; CmdShow].
Proof.
  intros Hsim. rewrite plot_draw, Hsim. cbn [fst snd].
  now rewrite draw_recorded.
Qed.

(** The passing scenario of the spec, plotted on an empty canvas. *)
Lemma plot_records_witness :
  snd (plot (plotting := Fixture.studio Scenario.close_reading)
         (Scenario.verifier Scenario.close_reading) None []) =
    [CmdFigure; CmdAxvline 0%float; CmdAxvline 1%float; CmdAxvline 2%float;
     CmdPlot [0; 1; 2]%float
       [0; 2 * np_pi * 1; 2 * np_pi * Scenario.close_reading]%float "a";
     CmdLegend; CmdShow].
Proof.
  apply (@plot_records _ _ _ (Scenario.bench Scenario.close_reading)
           (fun _ => [0; 1; 2]%float)
           (fun _ => [("a"%string,
                       [0; 2 * np_pi * 1; 2 * np_pi * Scenario.close_reading]%float)])
           (Scenario.verifier Scenario.close_reading) None
           (Scenario.trace Scenario.close_reading) []).
  reflexivity.
Defined.

(** ** Broadcasting *)

Section Broadcast.
Context {F : Type} {arith : Float64 F} {E : Type} {collab : Collaborators F E}.

(** Against a one-entry array, every entry of the other operand meets that
    entry. *)
Lemma np_binop_column (f : F -> F -> F) (a : list F) (y : F) :
  np_binop (E := E) f a [y] = Return (map (fun x => f x y) a).
Proof.
  unfold np_binop. destruct a as [|x [|x' a]]; reflexivity.
Qed.
End Broadcast.

(** X18. When the spec file has one column and the trace [m] signals,
    numpy stretches the column: at the first checked point every signal of
    the trace is compared with the one expected value, and a failure there
    lists the positions of the signals off, up to [m - 1], whatever the
    number of names in the spec file. *)
Theorem verify_stretches_single_column
    {F : Type} {arith : Float64 F} {E : Type} {collab : Collaborators F E}
    (self : Verifier F) (params : option (list (string * F)))
    (output : CircuitSimulatorOutput)
    (t0 t1 e0 e1 : F) (s0 s1 : list F) :
  simulation_of self params = Return output ->
  nth_error (time (spec_file_ self)) 0 = Some t0 -> sample output t0 = inr s0 ->
  nth_error (time (spec_file_ self)) 1 = Some t1 -> sample output t1 = inr s1 ->
  length s0 = length s1 ->
  nth_error (data (spec_file_ self)) 0 = Some [e0] ->
  nth_error (data (spec_file_ self)) 1 = Some [e1] ->
  (forall row, In row (data (spec_file_ self)) -> length row = 1) ->
  let off j :=
    match nth_error s1 j, nth_error s0 j with
    | Some s_i, Some s_0 =>
        fgt (fabs (fsub (fdiv (fsub s_i s_0) (fmul ftwo np_pi)) (fsub e1 e0)))
            (threshold_ self)
    | _, _ => false
    end in
  filter off (seq 0 (length s1)) <> [] ->
  fst (verify self params) =
    Return {| succeed := false;
              failure_time := Some t1;
              failure_point := Some (filter off (seq 0 (length s1))) |}.
Proof.
  intros Hsim Ht0 Hs0 Ht1 Hs1 Hlen He0 He1 Hrows off Hoff.
  rewrite verify_check, Hsim. cbn [bind]. unfold check.
  rewrite np_array2_rectangular with (n := 1) by exact Hrows. cbn [bind].
  unfold np_getitem at 1. rewrite He0. cbn [bind].
  unfold np_getitem at 1. rewrite Ht0. cbn [bind]. rewrite Hs0. cbn [call bind].
  assert (HN : 1 < length (time (spec_file_ self)))
    by (apply nth_error_Some; congruence).
  rewrite (@verify_loop_first _ _ _ 1 (length (time (spec_file_ self)) - 1) 1);
    [ | lia | intros; lia ].
  unfold verify_step, np_getitem, np_sub. rewrite Ht1. cbn [bind].
  rewrite Hs1. cbn [call bind].
  rewrite np_binop_aligned by congruence. cbn [bind]. rewrite He1. cbn [bind].
  rewrite np_binop_aligned by reflexivity. cbn [bind zip_with combine map fst snd].
  rewrite np_binop_column. cbn [bind].
  set (mask := np_gt_scalar _ (threshold_ self)).
  assert (Hmask : mask = map off (seq 0 (length s1))).
  { assert (Hl : length mask = length s1).
    { unfold mask, np_gt_scalar, np_abs, np_div_scalar.
      rewrite !length_map, zip_with_length; congruence. }
    rewrite <- Hl. apply tabulate. rewrite Hl. intros j Hj.
    unfold mask, np_gt_scalar, np_abs, np_div_scalar.
    rewrite !nth_error_map, zip_with_nth_error. unfold off.
    destruct (nth_error s1 j) eqn:E1; [|apply nth_error_None in E1; lia].
    destruct (nth_error s0 j) eqn:E2; [|apply nth_error_None in E2; lia].
    reflexivity. }
  rewrite Hmask, np_any_tabulated, np_where_tabulated.
  destruct (filter off (seq 0 (length s1))); [congruence | reflexivity].
Qed.

(** A spec file with the one signal ["a"] against a trace of three: the
    failure names position 2. *)
Lemma verify_stretches_single_column_witness :
  length (names (spec_file_ Fixture.wide_verifier)) = 1 /\
  fst (verify Fixture.wide_verifier None) =
    Return {| succeed := false;
              failure_time := Some 1%float;
              failure_point := Some [2] |}.
Proof.
  split; [reflexivity|].
  etransitivity.
  - apply (@verify_stretches_single_column _ _ _ Fixture.wide_bench
             Fixture.wide_verifier None Fixture.wide_trace
             0%float 1%float 0%float 1%float
             [0; 0; 0]%float
             [2 * np_pi * 1; 2 * np_pi * 1; 2 * np_pi * Scenario.far_reading]%float);
      try reflexivity.
    + intros row [<-|[<-|[]]]; reflexivity.
    + vm_compute. discriminate.
  - vm_compute. reflexivity.
Defined.
